(** * StableDiffusionLoRASetup: a shallow embedding

    Embedding of [modules/modelSetup/StableDiffusionLoRASetup.py].

    The Python class mutates one shared aggregate, the
    [StableDiffusionModel], in place.  Here every method takes the
    aggregate and returns the updated one.  Tensors live in a heap indexed
    by identifiers, and a [torch.nn.Module] is known by the identifiers its
    [parameters()] yields, so that two modules sharing weights (a base
    network and the PEFT wrapper around it) alias the same heap cells.

    Methods that can raise return a [result]. *)

From Stdlib Require Import List String Bool Arith ZArith QArith Lia.
Import ListNotations.
Local Open Scope string_scope.
Local Open Scope list_scope.
Local Open Scope nat_scope.

(** ** Exceptions *)

Inductive Exception : Type :=
| AssertionError
| AttributeError (attribute : string)
| ValueError.

Inductive result (A : Type) : Type :=
| Ok (a : A)
| Raise (e : Exception).
Arguments Ok {A} a.
Arguments Raise {A} e.

Definition bind {A B : Type} (c : result A) (k : A -> result B) : result B :=
  match c with
  | Ok a => k a
  | Raise e => Raise e
  end.

Notation "x <- c ;; k" := (bind c (fun x => k))
  (at level 61, c at next level, right associativity).

(** ** torch: tensors and modules *)

Inductive torch_dtype_t : Type := float32 | float16 | bfloat16.

Definition ParamId := nat.

Record TorchParameter : Type := {
  requires_grad : bool;
  dtype : torch_dtype_t;
}.

Definition Tensors := ParamId -> TorchParameter.

Definition update (t : Tensors) (i : ParamId) (f : TorchParameter -> TorchParameter) : Tensors :=
  fun j => (if Nat.eqb j i then f else fun p => p) (t j).

Definition set_requires_grad (b : bool) (p : TorchParameter) : TorchParameter :=
  {| requires_grad := b; dtype := dtype p |}.

Definition set_dtype (d : torch_dtype_t) (p : TorchParameter) : TorchParameter :=
  {| requires_grad := requires_grad p; dtype := d |}.

(** [torch.nn.Module.requires_grad_(b)]: [for p in self.parameters():
    p.requires_grad_(b)].  The module is given by its [parameters()]. *)
Definition requires_grad_ (parameters : list ParamId) (b : bool) (t : Tensors) : Tensors :=
  fold_left (fun t i => update t i (set_requires_grad b)) parameters t.

(** [torch.nn.Module.to(dtype=d)]: casts every parameter, keeps its flag. *)
Definition to_dtype (parameters : list ParamId) (d : torch_dtype_t) (t : Tensors) : Tensors :=
  fold_left (fun t i => update t i (set_dtype d)) parameters t.

(** The layer types [setup_model] tells apart, [torch.nn.Linear] and
    [torch.nn.Conv2d], and any other type; [wrappable] says whether the
    adapter library can wrap a layer of that type (an embedding: yes; a
    normalisation layer: no). *)
Inductive LayerKind : Type := Linear | Conv2d | OtherLayer (wrappable : bool).

Definition Device := string.

(** One entry of [named_modules()], with the weights the layer owns
    itself. *)
Record Layer : Type := {
  layer_name : string;
  layer_kind : LayerKind;
  layer_parameters : list ParamId;
}.

(** A network: its layers in traversal order. *)
Record Module : Type := {
  layers : list Layer;
  training : bool;
  device : Device;
}.

Definition named_modules (m : Module) : list (string * LayerKind) :=
  map (fun l => (layer_name l, layer_kind l)) (layers m).

(** [parameters()] yields the weights layer by layer. *)
Definition parameters (m : Module) : list ParamId :=
  flat_map layer_parameters (layers m).

Definition Module_to (m : Module) (d : Device) : Module :=
  {| layers := layers m; training := training m; device := d |}.

Definition Module_train (m : Module) (mode : bool) : Module :=
  {| layers := layers m; training := mode; device := device m |}.

Definition Module_with_layers (m : Module) (ls : list Layer) : Module :=
  {| layers := ls; training := training m; device := device m |}.

(** ** peft: [LoraConfig] and [get_peft_model] *)

Record LoraConfig : Type := {
  r : Z;
  lora_alpha : Q;
  lora_dropout : Q;
  target_modules : list string;
}.

(** A [PeftModel] is a [torch.nn.Module] that holds the wrapped network as
    its only child: its [parameters()] are those of the wrapped network. *)
Record PeftModel : Type := {
  active_adapter : string;
  peft_config : LoraConfig;
  peft_parameters : list ParamId;
}.

Definition ends_with (suffix s : string) : bool :=
  (String.length suffix <=? String.length s) &&
  String.eqb (substring (String.length s - String.length suffix) (String.length suffix) s)
             suffix.

(** A layer is targeted when its name is one of [target_modules] or ends
    with a dot followed by one of them. *)
Definition name_matches (target key : string) : bool :=
  String.eqb key target || ends_with ("." ++ target)%string key.

Definition is_target (cfg : LoraConfig) (l : Layer) : bool :=
  existsb (fun target => name_matches target (layer_name l)) (target_modules cfg).

Definition peft_supports (k : LayerKind) : bool :=
  match k with
  | Linear | Conv2d => true
  | OtherLayer wrappable => wrappable
  end.

(** The library refuses, with [ValueError], a rank that is not positive, a
    dropout probability above 1, a network in which no layer is targeted,
    and a targeted layer of a type it cannot wrap. *)
Definition peft_accepts (base : Module) (cfg : LoraConfig) : bool :=
  (0 <? r cfg)%Z &&
  Qle_bool (lora_dropout cfg) 1 &&
  existsb (is_target cfg) (layers base) &&
  forallb (fun l => peft_supports (layer_kind l)) (filter (is_target cfg) (layers base)).

Definition lora_init : TorchParameter := {| requires_grad := true; dtype := float32 |}.

(** What a targeted layer becomes: an adapter layer under the same name,
    holding the original layer as [base_layer] and the two new weight
    matrices [a] and [b] (for a layer that is neither Linear nor Conv2d,
    directly as parameters).  Children that own no weight are not listed. *)
Definition lora_layer (adapter_name : string) (l : Layer) (a b : ParamId) : list Layer :=
  let sub (suffix : string) (k : LayerKind) (ps : list ParamId) : Layer :=
    {| layer_name := (layer_name l ++ suffix)%string; layer_kind := k;
       layer_parameters := ps |} in
  {| layer_name := layer_name l; layer_kind := OtherLayer true; layer_parameters := [] |}
  :: sub ".base_layer" (layer_kind l) (layer_parameters l)
  :: match layer_kind l with
     | OtherLayer _ =>
         [sub ".lora_embedding_A" (OtherLayer false) [a];
          sub ".lora_embedding_B" (OtherLayer false) [b]]
     | k =>
         [sub (".lora_A." ++ adapter_name)%string k [a];
          sub (".lora_B." ++ adapter_name)%string k [b]]
     end.

(** The in-place injection: every targeted layer is replaced, in traversal
    order, and receives the next two free identifiers.  Returns the new
    layers, the identifiers handed out and the next free one. *)
Fixpoint inject_adapter (cfg : LoraConfig) (adapter_name : string) (ls : list Layer)
    (next : ParamId) : list Layer * list ParamId * ParamId :=
  match ls with
  | [] => ([], [], next)
  | l :: ls =>
      if is_target cfg l then
        let '(ls', fresh, next') := inject_adapter cfg adapter_name ls (next + 2) in
        (lora_layer adapter_name l next (next + 1) ++ ls', next :: (next + 1) :: fresh, next')
      else
        let '(ls', fresh, next') := inject_adapter cfg adapter_name ls next in
        (l :: ls', fresh, next')
  end.

(** [get_peft_model(base, cfg, adapter_name)].  The library injects the
    adapter into [base] in place: every targeted layer receives two new
    weight matrices, which from then on are among the parameters of [base]
    itself, right after the weights of the layer they adapt; the weights
    [base] had before are marked frozen and the new ones trainable.  The
    returned wrapper shares all of them.  Returns the updated base network,
    the wrapper, the heap and the next free identifier, or raises. *)
Definition get_peft_model (base : Module) (cfg : LoraConfig) (adapter_name : string)
    (t : Tensors) (next : ParamId) : result (Module * PeftModel * Tensors * ParamId) :=
  if peft_accepts base cfg then
    let '(ls, fresh, next') := inject_adapter cfg adapter_name (layers base) next in
    let t := requires_grad_ (parameters base) false t in
    let t := fold_left (fun t i => update t i (fun _ => lora_init)) fresh t in
    let base' := Module_with_layers base ls in
    Ok (base',
        {| active_adapter := adapter_name; peft_config := cfg;
           peft_parameters := parameters base' |},
        t, next')
  else Raise ValueError.

(** ** Configuration and training progress *)

Inductive TimeUnit : Type := EPOCH | STEP.

Record TrainProgress : Type := {
  epoch : nat;
  epoch_step : nat;
  global_step : nat;
}.

Inductive DataType : Type := FLOAT_32 | FLOAT_16 | BFLOAT_16.

(** Modelled from the spec: [DataType.torch_dtype()] (modules/util/enum,
    not part of this file), the "weight precision" of the adapter. *)
Definition torch_dtype (d : DataType) : torch_dtype_t :=
  match d with
  | FLOAT_32 => float32
  | FLOAT_16 => float16
  | BFLOAT_16 => bfloat16
  end.

Record TrainModelPartConfig : Type := {
  train : bool;
  learning_rate : Q;
  stop_training_after : option nat;
  stop_training_after_unit : TimeUnit;
}.

Record TrainConfig : Type := {
  text_encoder_config : TrainModelPartConfig;
  unet_config : TrainModelPartConfig;
  lora_rank : Z;
  lora_alpha_config : Q;
  dropout_probability : Q;
  lora_weight_dtype : DataType;
  rescale_noise_scheduler_to_zero_terminal_snr : bool;
  align_prop : bool;
  latent_caching : bool;
}.

(** ** Collaborators: optimizer, EMA, state dicts *)

Inductive StateDict : Type := state_dict (id : nat).

Record ParamGroup : Type := {
  params : list ParamId;
  lr : Q;
}.

(** [create.create_optimizer] and [create.create_ema] are opaque
    collaborators: the value they return is recorded as the call itself. *)
Inductive Optimizer : Type :=
| create_optimizer (groups : list ParamGroup) (state : option StateDict) (config : TrainConfig).

Inductive EMA : Type :=
| create_ema (parameters : list ParamId) (state : option StateDict) (config : TrainConfig).

(** Calls into the model or the base class whose effect is outside this
    file; they are logged in call order. *)
Inductive ExternalCall : Type :=
| rescale_noise_scheduler_call
| force_v_prediction_call
| setup_optimizations_call.

(** An instance attribute that [del] can remove. *)
Inductive attribute (A : Type) : Type :=
| Deleted
| Bound (a : A).
Arguments Deleted {A}.
Arguments Bound {A} a.

Definition getattr {A : Type} (name : string) (a : attribute A) : result A :=
  match a with
  | Bound v => Ok v
  | Deleted => Raise (AttributeError name)
  end.

(** ** The model aggregate *)

Record StableDiffusionModel : Type := {
  tensors : Tensors;
  next_param : ParamId;
  text_encoder : Module;
  unet : Module;
  vae : Module;
  depth_estimator : option Module;
  text_encoder_lora : option PeftModel;
  unet_lora : option PeftModel;
  train_progress : TrainProgress;
  optimizer : option Optimizer;
  optimizer_state_dict : attribute (option StateDict);
  ema : option EMA;
  ema_state_dict : attribute (option StateDict);
  external_calls : list ExternalCall;
}.

Definition with_tensors (m : StableDiffusionModel) (t : Tensors) : StableDiffusionModel :=
  {| tensors := t; next_param := next_param m;
     text_encoder := text_encoder m; unet := unet m; vae := vae m;
     depth_estimator := depth_estimator m;
     text_encoder_lora := text_encoder_lora m; unet_lora := unet_lora m;
     train_progress := train_progress m;
     optimizer := optimizer m; optimizer_state_dict := optimizer_state_dict m;
     ema := ema m; ema_state_dict := ema_state_dict m;
     external_calls := external_calls m |}.

Definition with_text_encoder (m : StableDiffusionModel) (x : Module) : StableDiffusionModel :=
  {| tensors := tensors m; next_param := next_param m;
     text_encoder := x; unet := unet m; vae := vae m;
     depth_estimator := depth_estimator m;
     text_encoder_lora := text_encoder_lora m; unet_lora := unet_lora m;
     train_progress := train_progress m;
     optimizer := optimizer m; optimizer_state_dict := optimizer_state_dict m;
     ema := ema m; ema_state_dict := ema_state_dict m;
     external_calls := external_calls m |}.

Definition with_unet (m : StableDiffusionModel) (x : Module) : StableDiffusionModel :=
  {| tensors := tensors m; next_param := next_param m;
     text_encoder := text_encoder m; unet := x; vae := vae m;
     depth_estimator := depth_estimator m;
     text_encoder_lora := text_encoder_lora m; unet_lora := unet_lora m;
     train_progress := train_progress m;
     optimizer := optimizer m; optimizer_state_dict := optimizer_state_dict m;
     ema := ema m; ema_state_dict := ema_state_dict m;
     external_calls := external_calls m |}.

Definition with_vae (m : StableDiffusionModel) (x : Module) : StableDiffusionModel :=
  {| tensors := tensors m; next_param := next_param m;
     text_encoder := text_encoder m; unet := unet m; vae := x;
     depth_estimator := depth_estimator m;
     text_encoder_lora := text_encoder_lora m; unet_lora := unet_lora m;
     train_progress := train_progress m;
     optimizer := optimizer m; optimizer_state_dict := optimizer_state_dict m;
     ema := ema m; ema_state_dict := ema_state_dict m;
     external_calls := external_calls m |}.

Definition with_depth_estimator (m : StableDiffusionModel) (x : option Module) : StableDiffusionModel :=
  {| tensors := tensors m; next_param := next_param m;
     text_encoder := text_encoder m; unet := unet m; vae := vae m;
     depth_estimator := x;
     text_encoder_lora := text_encoder_lora m; unet_lora := unet_lora m;
     train_progress := train_progress m;
     optimizer := optimizer m; optimizer_state_dict := optimizer_state_dict m;
     ema := ema m; ema_state_dict := ema_state_dict m;
     external_calls := external_calls m |}.

Definition with_optimizer (m : StableDiffusionModel) (x : option Optimizer)
    (sd : attribute (option StateDict)) : StableDiffusionModel :=
  {| tensors := tensors m; next_param := next_param m;
     text_encoder := text_encoder m; unet := unet m; vae := vae m;
     depth_estimator := depth_estimator m;
     text_encoder_lora := text_encoder_lora m; unet_lora := unet_lora m;
     train_progress := train_progress m;
     optimizer := x; optimizer_state_dict := sd;
     ema := ema m; ema_state_dict := ema_state_dict m;
     external_calls := external_calls m |}.

Definition with_ema (m : StableDiffusionModel) (x : option EMA)
    (sd : attribute (option StateDict)) : StableDiffusionModel :=
  {| tensors := tensors m; next_param := next_param m;
     text_encoder := text_encoder m; unet := unet m; vae := vae m;
     depth_estimator := depth_estimator m;
     text_encoder_lora := text_encoder_lora m; unet_lora := unet_lora m;
     train_progress := train_progress m;
     optimizer := optimizer m; optimizer_state_dict := optimizer_state_dict m;
     ema := x; ema_state_dict := sd;
     external_calls := external_calls m |}.

Definition call (m : StableDiffusionModel) (c : ExternalCall) : StableDiffusionModel :=
  {| tensors := tensors m; next_param := next_param m;
     text_encoder := text_encoder m; unet := unet m; vae := vae m;
     depth_estimator := depth_estimator m;
     text_encoder_lora := text_encoder_lora m; unet_lora := unet_lora m;
     train_progress := train_progress m;
     optimizer := optimizer m; optimizer_state_dict := optimizer_state_dict m;
     ema := ema m; ema_state_dict := ema_state_dict m;
     external_calls := external_calls m ++ [c] |}.

(** ** Methods of [StableDiffusionModel] used by the setup *)

(** Modelled from the spec: [StableDiffusionModel.text_encoder_to],
    [vae_to], [unet_to] and [depth_estimator_to] (modules/model, not part
    of this file) move the named sub-network to the given device; the depth
    estimator is moved "if present". *)
Definition text_encoder_to (m : StableDiffusionModel) (d : Device) : StableDiffusionModel :=
  with_text_encoder m (Module_to (text_encoder m) d).

Definition vae_to (m : StableDiffusionModel) (d : Device) : StableDiffusionModel :=
  with_vae m (Module_to (vae m) d).

Definition unet_to (m : StableDiffusionModel) (d : Device) : StableDiffusionModel :=
  with_unet m (Module_to (unet m) d).

Definition depth_estimator_to (m : StableDiffusionModel) (d : Device) : StableDiffusionModel :=
  with_depth_estimator m (option_map (fun x => Module_to x d) (depth_estimator m)).

(** [model.rescale_noise_scheduler_to_zero_terminal_snr()] (the config
    option has the same name) and [model.force_v_prediction()]: their
    effect is outside this file, the calls are logged. *)
Definition rescale_noise_scheduler (m : StableDiffusionModel) : StableDiffusionModel :=
  call m rescale_noise_scheduler_call.

Definition force_v_prediction (m : StableDiffusionModel) : StableDiffusionModel :=
  call m force_v_prediction_call.

(** ** Methods inherited from [BaseStableDiffusionSetup] *)

(** Modelled from the spec: the timed-action test behind
    [stop_text_encoder_training_elapsed] and [stop_unet_training_elapsed]
    (BaseStableDiffusionSetup, not part of this file): "checking whether the
    configured stop-step/epoch for that sub-network has passed"; with the
    threshold unset it never has. *)
Definition single_action_elapsed (after : option nat) (unit : TimeUnit)
    (progress : TrainProgress) : bool :=
  match after with
  | None => false
  | Some n =>
      match unit with
      | EPOCH => n <=? epoch progress
      | STEP => n <=? global_step progress
      end
  end.

Definition stop_text_encoder_training_elapsed (config : TrainConfig)
    (progress : TrainProgress) : bool :=
  single_action_elapsed (stop_training_after (text_encoder_config config))
                        (stop_training_after_unit (text_encoder_config config)) progress.

Definition stop_unet_training_elapsed (config : TrainConfig)
    (progress : TrainProgress) : bool :=
  single_action_elapsed (stop_training_after (unet_config config))
                        (stop_training_after_unit (unet_config config)) progress.

(** Modelled from the spec: [create_param_groups] (BaseStableDiffusionSetup,
    not part of this file) makes the "bundle of trainable tensors plus an
    associated learning rate". *)
Definition create_param_groups (config : TrainConfig) (ps : list ParamId) (rate : Q) : ParamGroup :=
  {| params := ps; lr := rate |}.

(** [setup_optimizations] (BaseStableDiffusionSetup, not part of this
    file): its effect is outside this file, the call is logged. *)
Definition setup_optimizations (m : StableDiffusionModel) (config : TrainConfig) : StableDiffusionModel :=
  call m setup_optimizations_call.

(** ** [StableDiffusionLoRASetup] *)

Record StableDiffusionLoRASetup : Type := {
  train_device : Device;
  temp_device : Device;
  debug_mode : bool;
}.

(** [x.parameters()] where [x] may be [None]. *)
Definition lora_parameters (x : option PeftModel) : result (list ParamId) :=
  match x with
  | Some v => Ok (peft_parameters v)
  | None => Raise (AttributeError "parameters")
  end.

(** Lines 27-40. *)
Definition create_parameters (model : StableDiffusionModel) (config : TrainConfig)
    : result (list ParamId) :=
  let params := [] in
  params <- (if train (text_encoder_config config)
             then ps <- lora_parameters (text_encoder_lora model) ;; Ok (params ++ ps)
             else Ok params) ;;
  params <- (if train (unet_config config)
             then ps <- lora_parameters (unet_lora model) ;; Ok (params ++ ps)
             else Ok params) ;;
  Ok params.

(** Lines 42-59. *)
Definition create_parameters_for_optimizer (model : StableDiffusionModel) (config : TrainConfig)
    : result (list ParamGroup) :=
  let param_groups := [] in
  param_groups <- (if train (text_encoder_config config)
                   then ps <- lora_parameters (text_encoder_lora model) ;;
                        Ok (param_groups ++
                            [create_param_groups config ps (learning_rate (text_encoder_config config))])
                   else Ok param_groups) ;;
  param_groups <- (if train (unet_config config)
                   then ps <- lora_parameters (unet_lora model) ;;
                        Ok (param_groups ++
                            [create_param_groups config ps (learning_rate (unet_config config))])
                   else Ok param_groups) ;;
  Ok param_groups.

(** The [target_modules] comprehension of lines 73 and 82. *)
Definition linear_or_conv2d (k : LayerKind) : bool :=
  match k with
  | Linear | Conv2d => true
  | OtherLayer _ => false
  end.

Definition lora_target_modules (base : Module) : list string :=
  map fst (filter (fun nm => linear_or_conv2d (snd nm)) (named_modules base)).

Definition make_lora_config (config : TrainConfig) (base : Module) : LoraConfig :=
  {| r := lora_rank config;
     lora_alpha := lora_alpha_config config;
     lora_dropout := dropout_probability config;
     target_modules := lora_target_modules base |}.

(** Lines 68-75. *)
Definition install_text_encoder_lora (model : StableDiffusionModel) (config : TrainConfig)
    : result StableDiffusionModel :=
  match text_encoder_lora model with
  | None =>
      let te_lora_config := make_lora_config config (text_encoder model) in
      wrapped <- get_peft_model (text_encoder model) te_lora_config "lora_te"
                                (tensors model) (next_param model) ;;
      let '(base, view, t, next) := wrapped in
      Ok {| tensors := t; next_param := next;
            text_encoder := base; unet := unet model; vae := vae model;
            depth_estimator := depth_estimator model;
            text_encoder_lora := Some view; unet_lora := unet_lora model;
            train_progress := train_progress model;
            optimizer := optimizer model;
            optimizer_state_dict := optimizer_state_dict model;
            ema := ema model; ema_state_dict := ema_state_dict model;
            external_calls := external_calls model |}
  | Some _ => Ok model
  end.

(** Lines 77-84. *)
Definition install_unet_lora (model : StableDiffusionModel) (config : TrainConfig)
    : result StableDiffusionModel :=
  match unet_lora model with
  | None =>
      let unet_lora_config := make_lora_config config (unet model) in
      wrapped <- get_peft_model (unet model) unet_lora_config "lora_unet"
                                (tensors model) (next_param model) ;;
      let '(base, view, t, next) := wrapped in
      Ok {| tensors := t; next_param := next;
            text_encoder := text_encoder model; unet := base; vae := vae model;
            depth_estimator := depth_estimator model;
            text_encoder_lora := text_encoder_lora model; unet_lora := Some view;
            train_progress := train_progress model;
            optimizer := optimizer model;
            optimizer_state_dict := optimizer_state_dict model;
            ema := ema model; ema_state_dict := ema_state_dict model;
            external_calls := external_calls model |}
  | Some _ => Ok model
  end.

(** Lines 68-84: both installation blocks. *)
Definition install_adapters (model : StableDiffusionModel) (config : TrainConfig)
    : result StableDiffusionModel :=
  model <- install_text_encoder_lora model config ;;
  install_unet_lora model config.

(** Lines 86-88. *)
Definition freeze_base_networks (model : StableDiffusionModel) : StableDiffusionModel :=
  let model := with_tensors model (requires_grad_ (parameters (text_encoder model)) false (tensors model)) in
  let model := with_tensors model (requires_grad_ (parameters (unet model)) false (tensors model)) in
  with_tensors model (requires_grad_ (parameters (vae model)) false (tensors model)).

(** The value of [train_text_encoder] (lines 91-92 and 151-152) and of
    [train_unet] (lines 96-97 and 156-157). *)
Definition train_text_encoder (model : StableDiffusionModel) (config : TrainConfig) : bool :=
  train (text_encoder_config config)
  && negb (stop_text_encoder_training_elapsed config (train_progress model)).

Definition train_unet (model : StableDiffusionModel) (config : TrainConfig) : bool :=
  train (unet_config config)
  && negb (stop_unet_training_elapsed config (train_progress model)).

(** Lines 90-93 and 150-153. *)
Definition gate_text_encoder_lora (model : StableDiffusionModel) (config : TrainConfig)
    : StableDiffusionModel :=
  match text_encoder_lora model with
  | Some view =>
      with_tensors model
        (requires_grad_ (peft_parameters view) (train_text_encoder model config) (tensors model))
  | None => model
  end.

(** Lines 95-98 and 155-158. *)
Definition gate_unet_lora (model : StableDiffusionModel) (config : TrainConfig)
    : StableDiffusionModel :=
  match unet_lora model with
  | Some view =>
      with_tensors model
        (requires_grad_ (peft_parameters view) (train_unet model config) (tensors model))
  | None => model
  end.

(** Lines 100-101: the casts are not guarded. *)
Definition cast_lora (x : option PeftModel) (d : torch_dtype_t) (model : StableDiffusionModel)
    : result StableDiffusionModel :=
  match x with
  | Some view => Ok (with_tensors model (to_dtype (peft_parameters view) d (tensors model)))
  | None => Raise (AttributeError "to")
  end.

Definition cast_adapters (model : StableDiffusionModel) (config : TrainConfig)
    : result StableDiffusionModel :=
  model <- cast_lora (text_encoder_lora model) (torch_dtype (lora_weight_dtype config)) model ;;
  cast_lora (unet_lora model) (torch_dtype (lora_weight_dtype config)) model.

(** Lines 103-117. *)
Definition build_optimizer_and_ema (model : StableDiffusionModel) (config : TrainConfig)
    : result StableDiffusionModel :=
  let model :=
    if rescale_noise_scheduler_to_zero_terminal_snr config
    then force_v_prediction (rescale_noise_scheduler model)
    else model in
  groups <- create_parameters_for_optimizer model config ;;
  state <- getattr "optimizer_state_dict" (optimizer_state_dict model) ;;
  let model := with_optimizer model (Some (create_optimizer groups state config)) Deleted in
  ps <- create_parameters model config ;;
  state <- getattr "ema_state_dict" (ema_state_dict model) ;;
  let model := with_ema model (Some (create_ema ps state config)) Deleted in
  Ok (setup_optimizations model config).

(** Lines 61-117. *)
Definition setup_model (model : StableDiffusionModel) (config : TrainConfig)
    : result StableDiffusionModel :=
  model <- install_text_encoder_lora model config ;;
  model <- install_unet_lora model config ;;
  let model := freeze_base_networks model in
  let model := gate_text_encoder_lora model config in
  let model := gate_unet_lora model config in
  model <- cast_adapters model config ;;
  build_optimizer_and_ema model config.

(** Lines 119-142. *)
Definition setup_train_device (self : StableDiffusionLoRASetup)
    (model : StableDiffusionModel) (config : TrainConfig) : StableDiffusionModel :=
  let vae_on_train_device := debug_mode self || align_prop config in
  let text_encoder_on_train_device :=
    train (text_encoder_config config) || align_prop config || negb (latent_caching config) in
  let model := text_encoder_to model
                 (if text_encoder_on_train_device then train_device self else temp_device self) in
  let model := vae_to model
                 (if vae_on_train_device then train_device self else temp_device self) in
  let model := unet_to model (train_device self) in
  let model := depth_estimator_to model (temp_device self) in
  let model :=
    if train (text_encoder_config config)
    then with_text_encoder model (Module_train (text_encoder model) true)
    else with_text_encoder model (Module_train (text_encoder model) false) in
  let model := with_vae model (Module_train (vae model) false) in
  if train (unet_config config)
  then with_unet model (Module_train (unet model) true)
  else with_unet model (Module_train (unet model) false).

(** Lines 144-158.  The [train_progress] argument is not read. *)
Definition after_optimizer_step (model : StableDiffusionModel) (config : TrainConfig)
    (train_progress : TrainProgress) : StableDiffusionModel :=
  let model := gate_text_encoder_lora model config in
  gate_unet_lora model config.

(** ** [report_learning_rates] *)

Record Scheduler : Type := {
  get_last_lr : list Q;
}.

(** The metrics sink: the scalars written so far, oldest first. *)
Record Scalar : Type := {
  tag : string;
  scalar_value : Q;
  scalar_step : nat;
}.

Definition SummaryWriter := list Scalar.

Definition add_scalar (tensorboard : SummaryWriter) (tag : string) (value : Q) (step : nat)
    : SummaryWriter :=
  tensorboard ++ [{| tag := tag; scalar_value := value; scalar_step := step |}].

(** Lines 168-172. *)
Definition lr_names (config : TrainConfig) : list string :=
  let names := [] in
  let names := if train (text_encoder_config config) then names ++ ["te"] else names in
  let names := if train (unet_config config) then names ++ ["unet"] else names in
  names.

Section ReportLearningRates.

(** [config.optimizer.optimizer.maybe_adjust_lrs] (modules/util/enum, not
    part of this file) is taken as a parameter. *)
Variable maybe_adjust_lrs : TrainConfig -> list Q -> option Optimizer -> list Q.

(** Lines 160-180. *)
Definition report_learning_rates (model : StableDiffusionModel) (config : TrainConfig)
    (scheduler : Scheduler) (tensorboard : SummaryWriter) : result SummaryWriter :=
  let lrs := get_last_lr scheduler in
  let names := lr_names config in
  if negb (List.length lrs =? List.length names) then Raise AssertionError else
  let lrs := maybe_adjust_lrs config lrs (optimizer model) in
  Ok (fold_left
        (fun tensorboard '(name, lr) =>
           add_scalar tensorboard ("lr/" ++ name) lr (global_step (train_progress model)))
        (combine names lrs) tensorboard).

End ReportLearningRates.

(** ** Auxiliary notions used in the statements *)

(** One heap-writing loop: [for p in ps: p <- f p]. *)
Definition write_all (f : TorchParameter -> TorchParameter) (ps : list ParamId) (t : Tensors)
    : Tensors :=
  fold_left (fun t i => update t i f) ps t.

(** The model after the gates of lines 90-98, from the model the
    installation blocks left. *)
Definition gated (installed : StableDiffusionModel) (config : TrainConfig)
    : StableDiffusionModel :=
  gate_unet_lora (gate_text_encoder_lora (freeze_base_networks installed) config) config.

(** Started on [model], the installation blocks run to their end. *)
Definition installs (model : StableDiffusionModel) (config : TrainConfig) : Prop :=
  exists installed, install_adapters model config = Ok installed.

(** What a method leaves alone: everything but the tensor heap. *)
Definition same_objects (a b : StableDiffusionModel) : Prop :=
  text_encoder b = text_encoder a /\ unet b = unet a /\ vae b = vae a /\
  text_encoder_lora b = text_encoder_lora a /\ unet_lora b = unet_lora a /\
  train_progress b = train_progress a.

(** The state-dict attributes are read only after the gates. *)
Definition same_state_dicts (a b : StableDiffusionModel) : Prop :=
  optimizer_state_dict b = optimizer_state_dict a /\ ema_state_dict b = ema_state_dict a.

(** Train progress only advances: no counter decreases. *)
Definition progress_le (a b : TrainProgress) : Prop :=
  epoch a <= epoch b /\ global_step a <= global_step b.

(** The progress is past the stop threshold [after], counted in [unit]. *)
Definition past (after : nat) (unit : TimeUnit) (progress : TrainProgress) : Prop :=
  match unit with
  | EPOCH => after < epoch progress
  | STEP => after < global_step progress
  end.

(** ** A small model to evaluate the methods on *)

Definition demo_tensors : Tensors :=
  fun _ => {| requires_grad := true; dtype := float32 |}.

Definition demo_layer (name : string) (kind : LayerKind) (ps : list ParamId) : Layer :=
  {| layer_name := name; layer_kind := kind; layer_parameters := ps |}.

Definition demo_text_encoder : Module :=
  {| layers := [demo_layer "text_model.layers.0.q_proj" Linear [0];
                demo_layer "text_model.final_layer_norm" (OtherLayer false) [1]];
     training := false; device := "cpu" |}.

Definition demo_unet : Module :=
  {| layers := [demo_layer "conv_in" Conv2d [2];
                demo_layer "mid_block.attn.to_q" Linear [3];
                demo_layer "conv_norm_out" (OtherLayer false) [4]];
     training := false; device := "cpu" |}.

Definition demo_vae : Module :=
  {| layers := [demo_layer "encoder.conv_in" Conv2d [5]];
     training := true; device := "cpu" |}.

Definition demo_progress (step : nat) : TrainProgress :=
  {| epoch := 0; epoch_step := step; global_step := step |}.

Definition demo_model : StableDiffusionModel :=
  {| tensors := demo_tensors; next_param := 6;
     text_encoder := demo_text_encoder; unet := demo_unet; vae := demo_vae;
     depth_estimator := None;
     text_encoder_lora := None; unet_lora := None;
     train_progress := demo_progress 0;
     optimizer := None; optimizer_state_dict := Bound None;
     ema := None; ema_state_dict := Bound None;
     external_calls := [] |}.

Definition demo_part (enabled : bool) (rate : Q) (after : option nat) : TrainModelPartConfig :=
  {| train := enabled; learning_rate := rate;
     stop_training_after := after; stop_training_after_unit := STEP |}.

Definition demo_config (te un : TrainModelPartConfig) : TrainConfig :=
  {| text_encoder_config := te; unet_config := un;
     lora_rank := 4%Z; lora_alpha_config := 1%Q; dropout_probability := 0%Q;
     lora_weight_dtype := FLOAT_32;
     rescale_noise_scheduler_to_zero_terminal_snr := false;
     align_prop := false; latent_caching := true |}.

(** Both sub-networks trained, no stop threshold. *)
Definition demo_config_both : TrainConfig :=
  demo_config (demo_part true (1 # 1000)%Q None) (demo_part true (1 # 10000)%Q None).

(** No sub-network trained. *)
Definition demo_config_none : TrainConfig :=
  demo_config (demo_part false (1 # 1000)%Q None) (demo_part false (1 # 10000)%Q None).

(** [demo_model] once both adapters are installed. *)
Definition demo_installed : StableDiffusionModel :=
  match install_adapters demo_model demo_config_both with
  | Ok m => m
  | Raise _ => demo_model
  end.

(** The two adapter views of [demo_installed]. *)
Definition demo_te_view : PeftModel :=
  {| active_adapter := "lora_te";
     peft_config := make_lora_config demo_config_both demo_text_encoder;
     peft_parameters := [0; 6; 7; 1] |}.

Definition demo_unet_view : PeftModel :=
  {| active_adapter := "lora_unet";
     peft_config := make_lora_config demo_config_both demo_unet;
     peft_parameters := [2; 8; 9; 3; 10; 11; 4] |}.

(** [demo_model] after [setup_model] with both sub-networks trained. *)
Definition demo_trained : StableDiffusionModel :=
  match setup_model demo_model demo_config_both with
  | Ok m => m
  | Raise _ => demo_model
  end.

(** The text encoder stops after step 10, the denoising network never. *)
Definition demo_config_stop : TrainConfig :=
  demo_config (demo_part true (1 # 1000)%Q (Some 10)) (demo_part true (1 # 10000)%Q None).

Definition demo_at (step : nat) : StableDiffusionModel :=
  {| tensors := tensors demo_installed; next_param := next_param demo_installed;
     text_encoder := text_encoder demo_installed; unet := unet demo_installed;
     vae := vae demo_installed; depth_estimator := depth_estimator demo_installed;
     text_encoder_lora := text_encoder_lora demo_installed;
     unet_lora := unet_lora demo_installed;
     train_progress := demo_progress step;
     optimizer := None; optimizer_state_dict := Bound None;
     ema := None; ema_state_dict := Bound None;
     external_calls := [] |}.

Definition demo_setup : StableDiffusionLoRASetup :=
  {| train_device := "cuda"; temp_device := "cpu"; debug_mode := false |}.

Definition demo_scheduler : Scheduler :=
  {| get_last_lr := [(1 # 1000)%Q; (1 # 10000)%Q] |}.

(** A [maybe_adjust_lrs] that adjusts nothing. *)
Definition keep_lrs (config : TrainConfig) (lrs : list Q) (o : option Optimizer) : list Q := lrs.

(** The scalar [report_learning_rates] writes for one name. *)
Definition lr_scalar (step : nat) (entry : string * Q) : Scalar :=
  let '(name, lr) := entry in
  {| tag := "lr/" ++ name; scalar_value := lr; scalar_step := step |}.

(** ** Proof automation *)

Ltac bind_inv H :=
  repeat match type of H with
         | bind ?c _ = Ok _ =>
             let E := fresh "E" in
             destruct c eqn:E; cbn [bind] in H; [|discriminate H]
         end.

(** * Properties *)

(** ** The tensor heap *)

Section Heap.

Variable f : TorchParameter -> TorchParameter.

Let write_all := write_all f.

Lemma update_same (t : Tensors) (i : ParamId) : update t i f i = f (t i).
Proof. unfold update. now rewrite Nat.eqb_refl. Qed.

Lemma update_other (t : Tensors) (i j : ParamId) : j <> i -> update t i f j = t j.
Proof.
  intros Hne. unfold update.
  destruct (Nat.eqb_spec j i); [contradiction | reflexivity].
Qed.

Lemma write_all_outside (ps : list ParamId) (t : Tensors) (p : ParamId) :
  ~ In p ps -> write_all ps t p = t p.
Proof.
  revert t. induction ps as [|a ps IH]; intros t Hnot; [reflexivity|].
  cbn. rewrite IH by (intro; apply Hnot; now right).
  apply update_other. intro; apply Hnot; now left.
Qed.

Hypothesis f_idem : forall x, f (f x) = f x.

Lemma write_all_inside (ps : list ParamId) (t : Tensors) (p : ParamId) :
  In p ps -> write_all ps t p = f (t p).
Proof.
  revert t. induction ps as [|a ps IH]; intros t Hin; [destruct Hin|].
  cbn. destruct (in_dec Nat.eq_dec p ps) as [Hps|Hps].
  - rewrite IH by assumption.
    destruct (Nat.eq_dec p a) as [->|Hne].
    + now rewrite update_same, f_idem.
    + now rewrite update_other.
  - destruct Hin as [<-|Hin]; [|contradiction].
    rewrite write_all_outside by assumption. apply update_same.
Qed.

End Heap.

Lemma requires_grad__inside (ps : list ParamId) (b : bool) (t : Tensors) (p : ParamId) :
  In p ps -> requires_grad (requires_grad_ ps b t p) = b.
Proof.
  intros Hin. unfold requires_grad_. fold (write_all (set_requires_grad b) ps t).
  rewrite (write_all_inside (set_requires_grad b)); [reflexivity | reflexivity | assumption].
Qed.

Lemma requires_grad__outside (ps : list ParamId) (b : bool) (t : Tensors) (p : ParamId) :
  ~ In p ps -> requires_grad_ ps b t p = t p.
Proof. apply (write_all_outside (set_requires_grad b)). Qed.

Lemma to_dtype_requires_grad (ps : list ParamId) (d : torch_dtype_t) (t : Tensors) (p : ParamId) :
  requires_grad (to_dtype ps d t p) = requires_grad (t p).
Proof.
  unfold to_dtype. fold (write_all (set_dtype d) ps t).
  destruct (in_dec Nat.eq_dec p ps) as [Hin|Hout].
  - rewrite (write_all_inside (set_dtype d)); [reflexivity | reflexivity | assumption].
  - now rewrite write_all_outside.
Qed.

(** ** Structure of [setup_model] *)

Lemma get_peft_model_Ok (base base' : Module) (cfg : LoraConfig) (adapter_name : string)
    (t t' : Tensors) (next next' : ParamId) (view : PeftModel) :
  get_peft_model base cfg adapter_name t next = Ok (base', view, t', next') ->
  active_adapter view = adapter_name /\ peft_config view = cfg /\
  peft_parameters view = parameters base'.
Proof.
  unfold get_peft_model. destruct (peft_accepts base cfg); [|discriminate].
  destruct (inject_adapter cfg adapter_name (layers base) next) as [[ls fresh] n].
  intros [= <- <- <- <-]. repeat split.
Qed.

(** What an installation block that completes leaves alone. *)
Lemma install_text_encoder_lora_Ok (model installed : StableDiffusionModel)
    (config : TrainConfig) :
  install_text_encoder_lora model config = Ok installed ->
  (exists view, text_encoder_lora installed = Some view) /\
  unet_lora installed = unet_lora model /\ unet installed = unet model /\
  vae installed = vae model /\ train_progress installed = train_progress model /\
  optimizer_state_dict installed = optimizer_state_dict model /\
  ema_state_dict installed = ema_state_dict model /\
  external_calls installed = external_calls model /\
  (forall view, text_encoder_lora model = Some view -> installed = model) /\
  (text_encoder_lora model = None ->
   exists view, text_encoder_lora installed = Some view /\
                active_adapter view = "lora_te" /\
                peft_config view = make_lora_config config (text_encoder model)).
Proof.
  unfold install_text_encoder_lora.
  destruct (text_encoder_lora model) as [v|] eqn:Hv.
  - intros [= <-]. split; [now exists v|]. repeat split; try reflexivity. discriminate.
  - destruct (get_peft_model (text_encoder model)
                (make_lora_config config (text_encoder model)) "lora_te"
                (tensors model) (next_param model)) as [[[[base view] t] next]|e] eqn:E;
      cbn [bind]; [|discriminate].
    intros [= <-]. cbn.
    destruct (get_peft_model_Ok _ _ _ _ _ _ _ _ _ E) as (Hname & Hcfg & _).
    split; [now exists view|]. repeat split; try reflexivity.
    + discriminate.
    + intros _. now exists view.
Qed.

Lemma install_unet_lora_Ok (model installed : StableDiffusionModel) (config : TrainConfig) :
  install_unet_lora model config = Ok installed ->
  (exists view, unet_lora installed = Some view) /\
  text_encoder_lora installed = text_encoder_lora model /\
  text_encoder installed = text_encoder model /\
  vae installed = vae model /\ train_progress installed = train_progress model /\
  optimizer_state_dict installed = optimizer_state_dict model /\
  ema_state_dict installed = ema_state_dict model /\
  external_calls installed = external_calls model /\
  (forall view, unet_lora model = Some view -> installed = model) /\
  (unet_lora model = None ->
   exists view, unet_lora installed = Some view /\
                active_adapter view = "lora_unet" /\
                peft_config view = make_lora_config config (unet model)).
Proof.
  unfold install_unet_lora.
  destruct (unet_lora model) as [v|] eqn:Hv.
  - intros [= <-]. split; [now exists v|]. repeat split; try reflexivity. discriminate.
  - destruct (get_peft_model (unet model)
                (make_lora_config config (unet model)) "lora_unet"
                (tensors model) (next_param model)) as [[[[base view] t] next]|e] eqn:E;
      cbn [bind]; [|discriminate].
    intros [= <-]. cbn.
    destruct (get_peft_model_Ok _ _ _ _ _ _ _ _ _ E) as (Hname & Hcfg & _).
    split; [now exists view|]. repeat split; try reflexivity.
    + discriminate.
    + intros _. now exists view.
Qed.

Lemma install_adapters_Ok (model installed : StableDiffusionModel) (config : TrainConfig) :
  install_adapters model config = Ok installed ->
  exists middle,
    install_text_encoder_lora model config = Ok middle /\
    install_unet_lora middle config = Ok installed.
Proof.
  unfold install_adapters. intros H.
  destruct (install_text_encoder_lora model config) as [middle|e]; [|discriminate H].
  now exists middle.
Qed.

Lemma install_adapters_present (model installed : StableDiffusionModel)
    (config : TrainConfig) :
  install_adapters model config = Ok installed ->
  exists te un, text_encoder_lora installed = Some te /\ unet_lora installed = Some un.
Proof.
  intros H. destruct (install_adapters_Ok _ _ _ H) as (middle & Hte & Hun).
  destruct (install_text_encoder_lora_Ok _ _ _ Hte) as ([te Vte] & _).
  destruct (install_unet_lora_Ok _ _ _ Hun) as ([un Vun] & Kte & _).
  exists te, un. split; [congruence | exact Vun].
Qed.

Lemma install_adapters_keeps_rest (model installed : StableDiffusionModel)
    (config : TrainConfig) :
  install_adapters model config = Ok installed ->
  vae installed = vae model /\ train_progress installed = train_progress model /\
  optimizer_state_dict installed = optimizer_state_dict model /\
  ema_state_dict installed = ema_state_dict model /\
  external_calls installed = external_calls model.
Proof.
  intros H. destruct (install_adapters_Ok _ _ _ H) as (middle & Hte & Hun).
  destruct (install_text_encoder_lora_Ok _ _ _ Hte) as (_&_&_& A1 & A2 & A3 & A4 & A5 & _).
  destruct (install_unet_lora_Ok _ _ _ Hun) as (_&_&_& B1 & B2 & B3 & B4 & B5 & _).
  repeat split; congruence.
Qed.

(** With both views present the installation blocks do nothing. *)
Lemma install_adapters_noop (model : StableDiffusionModel) (config : TrainConfig)
    (te un : PeftModel) :
  text_encoder_lora model = Some te -> unet_lora model = Some un ->
  install_adapters model config = Ok model.
Proof.
  intros Hte Hun. unfold install_adapters, install_text_encoder_lora. rewrite Hte.
  cbn [bind]. unfold install_unet_lora. now rewrite Hun.
Qed.

Lemma setup_model_unfold (model : StableDiffusionModel) (config : TrainConfig) :
  setup_model model config =
  (installed <- install_adapters model config ;;
   m <- cast_adapters (gated installed config) config ;;
   build_optimizer_and_ema m config).
Proof.
  unfold setup_model, install_adapters, gated. cbv zeta.
  destruct (install_text_encoder_lora model config) as [middle|e]; reflexivity.
Qed.

Lemma same_objects_trans (a b c : StableDiffusionModel) :
  same_objects a b -> same_objects b c -> same_objects a c.
Proof.
  unfold same_objects. intros (?&?&?&?&?&?) (?&?&?&?&?&?).
  repeat split; congruence.
Qed.

Lemma freeze_same_objects (a : StableDiffusionModel) : same_objects a (freeze_base_networks a).
Proof. repeat split. Qed.

Lemma gate_text_encoder_same_objects (a : StableDiffusionModel) (config : TrainConfig) :
  same_objects a (gate_text_encoder_lora a config).
Proof. unfold gate_text_encoder_lora. destruct (text_encoder_lora a); repeat split. Qed.

Lemma gate_unet_same_objects (a : StableDiffusionModel) (config : TrainConfig) :
  same_objects a (gate_unet_lora a config).
Proof. unfold gate_unet_lora. destruct (unet_lora a); repeat split. Qed.

Lemma gated_same_objects (installed : StableDiffusionModel) (config : TrainConfig) :
  same_objects installed (gated installed config).
Proof.
  unfold gated.
  eapply same_objects_trans; [apply freeze_same_objects|].
  eapply same_objects_trans; [apply gate_text_encoder_same_objects|].
  apply gate_unet_same_objects.
Qed.

Lemma create_parameters_for_optimizer_present (model : StableDiffusionModel)
    (config : TrainConfig) (te un : PeftModel) :
  text_encoder_lora model = Some te -> unet_lora model = Some un ->
  create_parameters_for_optimizer model config =
  Ok ((if train (text_encoder_config config)
       then [create_param_groups config (peft_parameters te)
                                 (learning_rate (text_encoder_config config))]
       else []) ++
      (if train (unet_config config)
       then [create_param_groups config (peft_parameters un)
                                 (learning_rate (unet_config config))]
       else [])).
Proof.
  intros Hte Hun. unfold create_parameters_for_optimizer. rewrite Hte, Hun.
  destruct (train (text_encoder_config config)), (train (unet_config config)); reflexivity.
Qed.

Lemma create_parameters_present (model : StableDiffusionModel)
    (config : TrainConfig) (te un : PeftModel) :
  text_encoder_lora model = Some te -> unet_lora model = Some un ->
  create_parameters model config =
  Ok ((if train (text_encoder_config config) then peft_parameters te else []) ++
      (if train (unet_config config) then peft_parameters un else [])).
Proof.
  intros Hte Hun. unfold create_parameters. rewrite Hte, Hun.
  destruct (train (text_encoder_config config)), (train (unet_config config));
    cbn; now rewrite ?app_nil_r.
Qed.

Lemma build_optimizer_and_ema_Ok (model model' : StableDiffusionModel) (config : TrainConfig) :
  build_optimizer_and_ema model config = Ok model' ->
  same_objects model model' /\ tensors model' = tensors model.
Proof.
  unfold build_optimizer_and_ema. intros H.
  destruct (rescale_noise_scheduler_to_zero_terminal_snr config);
    bind_inv H; injection H as <-; split; try reflexivity; repeat split.
Qed.

Lemma cast_adapters_Ok (model model' : StableDiffusionModel) (config : TrainConfig) :
  cast_adapters model config = Ok model' ->
  exists te un,
    text_encoder_lora model = Some te /\ unet_lora model = Some un /\
    same_objects model model' /\
    tensors model' =
      to_dtype (peft_parameters un) (torch_dtype (lora_weight_dtype config))
        (to_dtype (peft_parameters te) (torch_dtype (lora_weight_dtype config)) (tensors model)).
Proof.
  unfold cast_adapters, cast_lora. intros H.
  destruct (text_encoder_lora model) as [te|] eqn:Hte; [|discriminate H].
  cbn in H. destruct (unet_lora model) as [un|] eqn:Hun; [|discriminate H].
  injection H as <-. exists te, un. repeat split; assumption.
Qed.

Lemma setup_model_Ok (model model' : StableDiffusionModel) (config : TrainConfig) :
  setup_model model config = Ok model' ->
  exists installed te un,
    install_adapters model config = Ok installed /\
    text_encoder_lora (gated installed config) = Some te /\
    unet_lora (gated installed config) = Some un /\
    same_objects (gated installed config) model' /\
    forall p, requires_grad (tensors model' p)
              = requires_grad (tensors (gated installed config) p).
Proof.
  rewrite setup_model_unfold. intros H.
  destruct (install_adapters model config) as [installed|e]; [|discriminate H].
  cbn [bind] in H. bind_inv H.
  apply cast_adapters_Ok in E. destruct E as (te & un & Hte & Hun & Hsame & Ht).
  apply build_optimizer_and_ema_Ok in H. destruct H as [Hsame' Ht'].
  exists installed, te, un. split; [reflexivity|].
  split; [exact Hte|]. split; [exact Hun|]. split.
  - eapply same_objects_trans; eassumption.
  - intros p. rewrite Ht', Ht. now rewrite !to_dtype_requires_grad.
Qed.

Lemma gated_state_dicts (installed : StableDiffusionModel) (config : TrainConfig) :
  same_state_dicts installed (gated installed config).
Proof.
  assert (Gte : forall a, same_state_dicts a (gate_text_encoder_lora a config)).
  { intros a. unfold gate_text_encoder_lora. destruct (text_encoder_lora a); split; reflexivity. }
  assert (Gun : forall a, same_state_dicts a (gate_unet_lora a config)).
  { intros a. unfold gate_unet_lora. destruct (unet_lora a); split; reflexivity. }
  unfold gated, same_state_dicts in *.
  rewrite (proj1 (Gun _)), (proj2 (Gun _)), (proj1 (Gte _)), (proj2 (Gte _)).
  split; reflexivity.
Qed.

Lemma cast_adapters_returns (model : StableDiffusionModel) (config : TrainConfig)
    (te un : PeftModel) :
  text_encoder_lora model = Some te -> unet_lora model = Some un ->
  exists model',
    cast_adapters model config = Ok model' /\
    same_objects model model' /\ same_state_dicts model model'.
Proof.
  intros Hte Hun. unfold cast_adapters, cast_lora. rewrite Hte. cbn [bind].
  change (unet_lora (with_tensors model
            (to_dtype (peft_parameters te) (torch_dtype (lora_weight_dtype config))
               (tensors model))))
    with (unet_lora model).
  rewrite Hun. eexists. split; [reflexivity|].
  split; [repeat split | split; reflexivity].
Qed.

Lemma build_optimizer_and_ema_returns (model : StableDiffusionModel) (config : TrainConfig)
    (te un : PeftModel) (s1 s2 : option StateDict) :
  text_encoder_lora model = Some te -> unet_lora model = Some un ->
  optimizer_state_dict model = Bound s1 -> ema_state_dict model = Bound s2 ->
  exists model', build_optimizer_and_ema model config = Ok model'.
Proof.
  intros Hte Hun H1 H2. unfold build_optimizer_and_ema.
  set (scheduled := if rescale_noise_scheduler_to_zero_terminal_snr config
                    then force_v_prediction (rescale_noise_scheduler model) else model).
  assert (Hs : text_encoder_lora scheduled = Some te /\ unet_lora scheduled = Some un /\
               optimizer_state_dict scheduled = Bound s1 /\
               ema_state_dict scheduled = Bound s2).
  { unfold scheduled.
    destruct (rescale_noise_scheduler_to_zero_terminal_snr config); repeat split; assumption. }
  destruct Hs as (Ste & Sun & S1 & S2). clearbody scheduled.
  rewrite (create_parameters_for_optimizer_present _ config te un Ste Sun).
  cbn [bind]. rewrite S1. cbn [bind getattr].
  erewrite (create_parameters_present _ config te un) by (cbn; assumption).
  cbn [bind with_optimizer ema_state_dict]. rewrite S2.
  cbn [bind getattr]. eexists. reflexivity.
Qed.

(** [setup_model] returns as soon as the installation blocks complete and
    the two state-dict attributes are still bound on entry. *)
Lemma setup_model_returns (model installed : StableDiffusionModel) (config : TrainConfig)
    (s1 s2 : option StateDict) :
  install_adapters model config = Ok installed ->
  optimizer_state_dict model = Bound s1 -> ema_state_dict model = Bound s2 ->
  exists model', setup_model model config = Ok model'.
Proof.
  intros Hinst H1 H2. rewrite setup_model_unfold, Hinst. cbn [bind].
  destruct (install_adapters_present _ _ _ Hinst) as (te & un & Hte & Hun).
  destruct (install_adapters_keeps_rest _ _ _ Hinst) as (_ & _ & I1 & I2 & _).
  destruct (gated_same_objects installed config) as (_&_&_& Gte & Gun &_).
  rewrite Hte in Gte. rewrite Hun in Gun.
  destruct (gated_state_dicts installed config) as [O1 O2].
  destruct (cast_adapters_returns _ config te un Gte Gun)
    as (cast & Hcast & (_&_&_& Cte & Cun &_) & [C1 C2]).
  rewrite Hcast. cbn [bind].
  apply build_optimizer_and_ema_returns with (te := te) (un := un) (s1 := s1) (s2 := s2);
    congruence.
Qed.

(** ** The phase gate *)

Lemma train_flags_same_objects (a b : StableDiffusionModel) (config : TrainConfig) :
  same_objects a b ->
  train_text_encoder b config = train_text_encoder a config /\
  train_unet b config = train_unet a config.
Proof.
  intros (_&_&_&_&_&Hp). unfold train_text_encoder, train_unet. now rewrite Hp.
Qed.

Lemma gate_unet_lora_outside (a : StableDiffusionModel) (config : TrainConfig) (p : ParamId) :
  (forall un, unet_lora a = Some un -> ~ In p (peft_parameters un)) ->
  tensors (gate_unet_lora a config) p = tensors a p.
Proof.
  intros Hout. unfold gate_unet_lora.
  destruct (unet_lora a) as [un|]; [|reflexivity].
  cbn. apply requires_grad__outside. now apply Hout.
Qed.

Lemma gate_text_encoder_lora_outside (a : StableDiffusionModel) (config : TrainConfig)
    (p : ParamId) :
  (forall te, text_encoder_lora a = Some te -> ~ In p (peft_parameters te)) ->
  tensors (gate_text_encoder_lora a config) p = tensors a p.
Proof.
  intros Hout. unfold gate_text_encoder_lora.
  destruct (text_encoder_lora a) as [te|]; [|reflexivity].
  cbn. apply requires_grad__outside. now apply Hout.
Qed.

Lemma gate_unet_lora_inside (a : StableDiffusionModel) (config : TrainConfig)
    (view : PeftModel) (p : ParamId) :
  unet_lora a = Some view -> In p (peft_parameters view) ->
  requires_grad (tensors (gate_unet_lora a config) p) = train_unet a config.
Proof.
  intros Hv Hin. unfold gate_unet_lora. rewrite Hv. cbn.
  now apply requires_grad__inside.
Qed.

Lemma gate_text_encoder_lora_inside (a : StableDiffusionModel) (config : TrainConfig)
    (view : PeftModel) (p : ParamId) :
  text_encoder_lora a = Some view -> In p (peft_parameters view) ->
  requires_grad (tensors (gate_text_encoder_lora a config) p) = train_text_encoder a config.
Proof.
  intros Hv Hin. unfold gate_text_encoder_lora. rewrite Hv. cbn.
  now apply requires_grad__inside.
Qed.

(** Both gates in sequence, as in lines 90-98 and 150-158. *)
Lemma gates_flags (a : StableDiffusionModel) (config : TrainConfig) :
  let g := gate_unet_lora (gate_text_encoder_lora a config) config in
  (forall view p,
      unet_lora a = Some view -> In p (peft_parameters view) ->
      requires_grad (tensors g p) = train_unet a config) /\
  (forall view p,
      text_encoder_lora a = Some view -> In p (peft_parameters view) ->
      (forall un, unet_lora a = Some un -> ~ In p (peft_parameters un)) ->
      requires_grad (tensors g p) = train_text_encoder a config).
Proof.
  pose proof (gate_text_encoder_same_objects a config) as Hsame.
  destruct (train_flags_same_objects _ _ config Hsame) as [_ Hflag].
  destruct Hsame as (_&_&_&_&Hun&_).
  cbn zeta. split.
  - intros view p Hv Hin. rewrite <- Hflag.
    apply gate_unet_lora_inside with (view := view); [congruence | assumption].
  - intros view p Hv Hin Hout.
    rewrite gate_unet_lora_outside by (rewrite Hun; assumption).
    now apply gate_text_encoder_lora_inside with (view := view).
Qed.

(** The same flags at the end of [setup_model]: the casts and what follows
    leave them as the gates set them. *)
Lemma setup_model_flags (model model' : StableDiffusionModel) (config : TrainConfig) :
  setup_model model config = Ok model' ->
  (forall view p,
      unet_lora model' = Some view -> In p (peft_parameters view) ->
      requires_grad (tensors model' p) = train_unet model' config) /\
  (forall view p,
      text_encoder_lora model' = Some view -> In p (peft_parameters view) ->
      (forall un, unet_lora model' = Some un -> ~ In p (peft_parameters un)) ->
      requires_grad (tensors model' p) = train_text_encoder model' config).
Proof.
  intros Hret.
  destruct (setup_model_Ok _ _ _ Hret) as (installed & te & un & _ & Hte & Hun & Hsame & Hrg).
  set (frozen := freeze_base_networks installed) in *.
  assert (Hfg : same_objects frozen (gated installed config)).
  { unfold gated. fold frozen.
    eapply same_objects_trans; [apply gate_text_encoder_same_objects|].
    apply gate_unet_same_objects. }
  pose proof (same_objects_trans _ _ _ Hfg Hsame) as Hfm.
  destruct (train_flags_same_objects _ _ config Hfm) as [Fte Fun].
  destruct Hfm as (_&_&_&Mte&Mun&_).
  destruct (gates_flags frozen config) as [Gun Gte].
  fold (gated installed config) in Gun, Gte. split.
  - intros view p Hv Hin. rewrite Hrg, Fun.
    apply Gun with (view := view); [congruence | assumption].
  - intros view p Hv Hin Hout. rewrite Hrg, Fte.
    apply Gte with (view := view); [congruence | assumption |].
    intros un' Hun'. apply Hout. congruence.
Qed.

(** C1. In [setup_model] and in [after_optimizer_step] alike, every weight
    reached through a present adapter view ends with its gradient flag equal
    to the sub-network's [train] option and-ed with the negation of its
    stop-training predicate at [model.train_progress].  The denoising
    network's gate is written last; the text encoder's flag is read on the
    weights the other view does not also reach.  With no adapter view,
    [after_optimizer_step] changes nothing. *)
Theorem phase_gate_applied (model : StableDiffusionModel) (config : TrainConfig) :
  (forall progress view p,
      unet_lora model = Some view -> In p (peft_parameters view) ->
      requires_grad (tensors (after_optimizer_step model config progress) p) =
      train (unet_config config)
      && negb (stop_unet_training_elapsed config (train_progress model))) /\
  (forall progress view p,
      text_encoder_lora model = Some view -> In p (peft_parameters view) ->
      (forall un, unet_lora model = Some un -> ~ In p (peft_parameters un)) ->
      requires_grad (tensors (after_optimizer_step model config progress) p) =
      train (text_encoder_config config)
      && negb (stop_text_encoder_training_elapsed config (train_progress model))) /\
  (forall progress,
      text_encoder_lora model = None -> unet_lora model = None ->
      after_optimizer_step model config progress = model) /\
  (forall model',
      setup_model model config = Ok model' ->
      (forall view p,
          unet_lora model' = Some view -> In p (peft_parameters view) ->
          requires_grad (tensors model' p) =
          train (unet_config config)
          && negb (stop_unet_training_elapsed config (train_progress model'))) /\
      (forall view p,
          text_encoder_lora model' = Some view -> In p (peft_parameters view) ->
          (forall un, unet_lora model' = Some un -> ~ In p (peft_parameters un)) ->
          requires_grad (tensors model' p) =
          train (text_encoder_config config)
          && negb (stop_text_encoder_training_elapsed config (train_progress model')))).
Proof.
  split; [|split; [|split]].
  - intros progress. apply (gates_flags model config).
  - intros progress. apply (gates_flags model config).
  - intros progress Hte Hun. unfold after_optimizer_step, gate_text_encoder_lora.
    rewrite Hte. unfold gate_unet_lora. now rewrite Hun.
  - intros model' Hret. exact (setup_model_flags _ _ _ Hret).
Qed.

Lemma phase_gate_applied_witness :
  requires_grad (tensors (after_optimizer_step demo_installed demo_config_both (demo_progress 7)) 8)
  = true /\
  requires_grad (tensors (after_optimizer_step demo_installed demo_config_both (demo_progress 7)) 6)
  = true /\
  after_optimizer_step demo_model demo_config_both (demo_progress 7) = demo_model /\
  requires_grad (tensors demo_trained 8) = true /\
  requires_grad (tensors demo_trained 6) = true.
Proof.
  assert (Ite : text_encoder_lora demo_installed = Some demo_te_view)
    by (vm_compute; reflexivity).
  assert (Iun : unet_lora demo_installed = Some demo_unet_view)
    by (vm_compute; reflexivity).
  assert (Tte : text_encoder_lora demo_trained = Some demo_te_view)
    by (vm_compute; reflexivity).
  assert (Tun : unet_lora demo_trained = Some demo_unet_view)
    by (vm_compute; reflexivity).
  assert (Hret : setup_model demo_model demo_config_both = Ok demo_trained)
    by (vm_compute; reflexivity).
  assert (In8 : In 8 (peft_parameters demo_unet_view)) by (simpl; tauto).
  assert (In6 : In 6 (peft_parameters demo_te_view)) by (simpl; tauto).
  assert (Out6 : ~ In 6 (peft_parameters demo_unet_view)) by (simpl; lia).
  destruct (phase_gate_applied demo_installed demo_config_both) as (Hun & Hte & _ & _).
  destruct (phase_gate_applied demo_model demo_config_both) as (_ & _ & Hnone & Hsetup).
  destruct (Hsetup demo_trained Hret) as [Sun Ste].
  split; [|split; [|split; [|split]]].
  - rewrite (Hun (demo_progress 7) demo_unet_view 8 Iun In8). reflexivity.
  - rewrite (Hte (demo_progress 7) demo_te_view 6 Ite In6).
    + reflexivity.
    + intros un Heq. rewrite Iun in Heq. injection Heq as <-. exact Out6.
  - apply Hnone; reflexivity.
  - rewrite (Sun demo_unet_view 8 Tun In8). reflexivity.
  - rewrite (Ste demo_te_view 6 Tte In6).
    + reflexivity.
    + intros un Heq. rewrite Tun in Heq. injection Heq as <-. exact Out6.
Defined.

(** ** Parameter groups *)

(** C2. When neither the text encoder nor the denoising network is trained,
    [create_parameters_for_optimizer] returns the empty sequence, and so
    does [create_parameters], whatever the model. *)
Theorem untrained_config_has_no_parameters (model : StableDiffusionModel)
    (config : TrainConfig) :
  train (text_encoder_config config) = false ->
  train (unet_config config) = false ->
  create_parameters_for_optimizer model config = Ok [] /\
  create_parameters model config = Ok [].
Proof.
  intros Hte Hun. unfold create_parameters_for_optimizer, create_parameters.
  rewrite Hte, Hun. split; reflexivity.
Qed.

Lemma untrained_config_has_no_parameters_witness :
  create_parameters_for_optimizer demo_model demo_config_none = Ok [] /\
  create_parameters demo_model demo_config_none = Ok [].
Proof.
  apply untrained_config_has_no_parameters; reflexivity.
Defined.

Lemma lr_names_shape (config : TrainConfig) :
  lr_names config =
  (if train (text_encoder_config config) then ["te"] else []) ++
  (if train (unet_config config) then ["unet"] else []).
Proof.
  unfold lr_names.
  destruct (train (text_encoder_config config)), (train (unet_config config)); reflexivity.
Qed.

(** ** [report_learning_rates] *)

Lemma add_scalars_app (step : nat) (entries : list (string * Q)) (tensorboard : SummaryWriter) :
  fold_left
    (fun tensorboard '(name, lr) => add_scalar tensorboard ("lr/" ++ name) lr step)
    entries tensorboard
  = tensorboard ++ map (lr_scalar step) entries.
Proof.
  revert tensorboard. induction entries as [|[name lr] entries IH]; intros tensorboard.
  - cbn. now rewrite app_nil_r.
  - cbn [fold_left map]. rewrite IH. unfold add_scalar. rewrite <- app_assoc. reflexivity.
Qed.

Lemma lr_scalars_of_combine (step : nat) (names : list string) (lrs : list Q) :
  List.length lrs = List.length names ->
  List.length (map (lr_scalar step) (combine names lrs)) = List.length names /\
  map tag (map (lr_scalar step) (combine names lrs)) = map (String.append "lr/") names /\
  map scalar_value (map (lr_scalar step) (combine names lrs)) = lrs.
Proof.
  revert lrs. induction names as [|name names IH]; intros [|lr lrs] Hlen;
    try discriminate Hlen.
  - repeat split.
  - injection Hlen as Hlen. destruct (IH lrs Hlen) as (H1 & H2 & H3).
    cbn. rewrite H1, H2, H3. repeat split.
Qed.





(** ** Adapter installation *)

Lemma install_adapters_keeps_text_encoder (model installed : StableDiffusionModel)
    (config : TrainConfig) (view : PeftModel) :
  text_encoder_lora model = Some view ->
  install_adapters model config = Ok installed ->
  text_encoder_lora installed = Some view /\ text_encoder installed = text_encoder model.
Proof.
  intros Hv H. destruct (install_adapters_Ok _ _ _ H) as (middle & Hte & Hun).
  destruct (install_text_encoder_lora_Ok _ _ _ Hte) as (_&_&_&_&_&_&_&_& Hsame & _).
  rewrite (Hsame view Hv) in Hun.
  destruct (install_unet_lora_Ok _ _ _ Hun) as (_ & Kl & Kt & _).
  split; congruence.
Qed.

Lemma install_adapters_keeps_unet (model installed : StableDiffusionModel)
    (config : TrainConfig) (view : PeftModel) :
  unet_lora model = Some view ->
  install_adapters model config = Ok installed ->
  unet_lora installed = Some view /\ unet installed = unet model.
Proof.
  intros Hv H. destruct (install_adapters_Ok _ _ _ H) as (middle & Hte & Hun).
  destruct (install_text_encoder_lora_Ok _ _ _ Hte) as (_ & Kl & Ku & _).
  destruct (install_unet_lora_Ok _ _ _ Hun) as (_&_&_&_&_&_&_&_& Hsame & _).
  rewrite (Hsame view) by congruence. split; congruence.
Qed.

(** C4. Installation does nothing for a sub-network whose adapter view is
    already there: the guarded block returns the model as it was, so running
    both blocks a second time changes nothing (one view per sub-network, no
    adapter injected twice), and a [setup_model] that returns has kept the
    view and the wrapped network it found. *)
Theorem adapter_installation_idempotent (model : StableDiffusionModel) (config : TrainConfig) :
  (forall view, text_encoder_lora model = Some view ->
                install_text_encoder_lora model config = Ok model) /\
  (forall view, unet_lora model = Some view ->
                install_unet_lora model config = Ok model) /\
  (installed <- install_adapters model config ;; install_adapters installed config)
    = install_adapters model config /\
  (forall model',
      setup_model model config = Ok model' ->
      (forall view, text_encoder_lora model = Some view ->
                    text_encoder_lora model' = Some view /\
                    text_encoder model' = text_encoder model) /\
      (forall view, unet_lora model = Some view ->
                    unet_lora model' = Some view /\ unet model' = unet model)).
Proof.
  split; [|split; [|split]].
  - intros view Hv. unfold install_text_encoder_lora. now rewrite Hv.
  - intros view Hv. unfold install_unet_lora. now rewrite Hv.
  - destruct (install_adapters model config) as [installed|e] eqn:H; [|reflexivity].
    cbn [bind]. destruct (install_adapters_present _ _ _ H) as (te & un & Hte & Hun).
    apply (install_adapters_noop installed config te un Hte Hun).
  - intros model' Hret.
    destruct (setup_model_Ok _ _ _ Hret) as (installed & _ & _ & Hinst & _ & _ & Hsame & _).
    pose proof (same_objects_trans _ _ _ (gated_same_objects installed config) Hsame)
      as (Mte & Mun & _ & Lte & Lun & _).
    split; intros view Hv.
    + destruct (install_adapters_keeps_text_encoder _ _ config view Hv Hinst) as [H1 H2].
      split; congruence.
    + destruct (install_adapters_keeps_unet _ _ config view Hv Hinst) as [H1 H2].
      split; congruence.
Qed.

Lemma adapter_installation_idempotent_witness :
  install_text_encoder_lora demo_installed demo_config_both = Ok demo_installed /\
  install_unet_lora demo_installed demo_config_both = Ok demo_installed /\
  text_encoder_lora demo_trained = Some demo_te_view /\
  text_encoder demo_trained = text_encoder demo_installed.
Proof.
  assert (Ite : text_encoder_lora demo_installed = Some demo_te_view)
    by (vm_compute; reflexivity).
  assert (Iun : unet_lora demo_installed = Some demo_unet_view)
    by (vm_compute; reflexivity).
  destruct (adapter_installation_idempotent demo_installed demo_config_both)
    as (Hte & Hun & _ & Hsetup).
  split; [exact (Hte _ Ite)|]. split; [exact (Hun _ Iun)|].
  split; vm_compute; reflexivity.
Defined.

Lemma install_adapters_raises_ValueError (model : StableDiffusionModel) (config : TrainConfig)
    (e : Exception) :
  install_adapters model config = Raise e -> e = ValueError.
Proof.
  assert (Hpeft : forall base cfg name t next,
             get_peft_model base cfg name t next = Raise e -> e = ValueError).
  { intros base cfg name t next. unfold get_peft_model.
    destruct (peft_accepts base cfg); [|congruence].
    destruct (inject_adapter cfg name (layers base) next) as [[ls fresh] n]. discriminate. }
  assert (Hte : forall a, install_text_encoder_lora a config = Raise e -> e = ValueError).
  { intros a. unfold install_text_encoder_lora.
    destruct (text_encoder_lora a); [discriminate|].
    destruct (get_peft_model _ _ _ _ _) as [[[[base view] t] next]|e'] eqn:E;
      cbn [bind]; [discriminate|]. intros [= ->]. exact (Hpeft _ _ _ _ _ E). }
  assert (Hun : forall a, install_unet_lora a config = Raise e -> e = ValueError).
  { intros a. unfold install_unet_lora.
    destruct (unet_lora a); [discriminate|].
    destruct (get_peft_model _ _ _ _ _) as [[[[base view] t] next]|e'] eqn:E;
      cbn [bind]; [discriminate|]. intros [= ->]. exact (Hpeft _ _ _ _ _ E). }
  unfold install_adapters.
  destruct (install_text_encoder_lora model config) as [middle|e'] eqn:E; cbn [bind].
  - apply Hun.
  - intros [= ->]. exact (Hte _ E).
Qed.

Lemma setup_model_after_installation (model installed : StableDiffusionModel)
    (config : TrainConfig) :
  install_adapters model config = Ok installed ->
  exists cast te un,
    cast_adapters (gated installed config) config = Ok cast /\
    text_encoder_lora cast = Some te /\ unet_lora cast = Some un /\
    setup_model model config = build_optimizer_and_ema cast config.
Proof.
  intros Hinst.
  destruct (install_adapters_present _ _ _ Hinst) as (te & un & Hte & Hun).
  destruct (gated_same_objects installed config) as (_&_&_& Gte & Gun &_).
  rewrite Hte in Gte. rewrite Hun in Gun.
  destruct (cast_adapters_returns _ config te un Gte Gun)
    as (cast & Hcast & (_&_&_& Cte & Cun &_) & _).
  exists cast, te, un. split; [exact Hcast|].
  split; [congruence|]. split; [congruence|].
  rewrite setup_model_unfold, Hinst. cbn [bind]. rewrite Hcast. reflexivity.
Qed.

Lemma build_optimizer_and_ema_finds_views (model : StableDiffusionModel)
    (config : TrainConfig) (te un : PeftModel) (name : string) :
  text_encoder_lora model = Some te -> unet_lora model = Some un ->
  build_optimizer_and_ema model config = Raise (AttributeError name) ->
  name = "optimizer_state_dict" \/ name = "ema_state_dict".
Proof.
  intros Hte Hun. unfold build_optimizer_and_ema.
  set (scheduled := if rescale_noise_scheduler_to_zero_terminal_snr config
                    then force_v_prediction (rescale_noise_scheduler model) else model).
  assert (Hs : text_encoder_lora scheduled = Some te /\ unet_lora scheduled = Some un).
  { unfold scheduled.
    destruct (rescale_noise_scheduler_to_zero_terminal_snr config); split; assumption. }
  destruct Hs as [Ste Sun]. clearbody scheduled.
  rewrite (create_parameters_for_optimizer_present _ config te un Ste Sun).
  cbn [bind].
  destruct (optimizer_state_dict scheduled); cbn [bind getattr]; [intros [= <-]; now left|].
  erewrite (create_parameters_present _ config te un) by (cbn; assumption).
  cbn [bind with_optimizer ema_state_dict].
  destruct (ema_state_dict scheduled); cbn [bind getattr]; [intros [= <-]; now right|].
  discriminate.
Qed.

(** C9. Once the two installation blocks have run to their end both
    adapter views are present, whatever the model on entry: the two guarded
    gates that follow run their branch and the unguarded casts find an
    object.  The blocks end early only with the [ValueError] of
    [get_peft_model], which then ends [setup_model] before the gates and the
    casts; so [setup_model] never fails on a missing view. *)
Theorem adapters_present_after_installation (model : StableDiffusionModel)
    (config : TrainConfig) :
  (forall installed,
      install_adapters model config = Ok installed ->
      exists te un,
        text_encoder_lora installed = Some te /\ unet_lora installed = Some un /\
        (let frozen := freeze_base_networks installed in
         gate_text_encoder_lora frozen config =
           with_tensors frozen
             (requires_grad_ (peft_parameters te) (train_text_encoder frozen config)
                             (tensors frozen)) /\
         gate_unet_lora (gate_text_encoder_lora frozen config) config =
           with_tensors (gate_text_encoder_lora frozen config)
             (requires_grad_ (peft_parameters un)
                             (train_unet (gate_text_encoder_lora frozen config) config)
                             (tensors (gate_text_encoder_lora frozen config)))) /\
        exists cast,
          cast_adapters (gated installed config) config = Ok cast /\
          text_encoder_lora cast = Some te /\ unet_lora cast = Some un /\
          setup_model model config = build_optimizer_and_ema cast config) /\
  (forall e, install_adapters model config = Raise e ->
             e = ValueError /\ setup_model model config = Raise ValueError) /\
  setup_model model config <> Raise (AttributeError "to") /\
  setup_model model config <> Raise (AttributeError "parameters").
Proof.
  assert (Hsafe : forall name, name <> "optimizer_state_dict" -> name <> "ema_state_dict" ->
                               setup_model model config <> Raise (AttributeError name)).
  { intros name N1 N2 Hraise.
    destruct (install_adapters model config) as [installed|e] eqn:Hinst.
    - destruct (setup_model_after_installation _ _ _ Hinst)
        as (cast & te & un & _ & Cte & Cun & Heq).
      rewrite Heq in Hraise.
      destruct (build_optimizer_and_ema_finds_views _ _ te un name Cte Cun Hraise);
        contradiction.
    - rewrite setup_model_unfold, Hinst in Hraise. cbn [bind] in Hraise.
      injection Hraise as ->.
      discriminate (install_adapters_raises_ValueError _ _ _ Hinst). }
  split; [|split; [|split]].
  - intros installed Hinst.
    destruct (install_adapters_present _ _ _ Hinst) as (te & un & Hte & Hun).
    exists te, un. split; [exact Hte|]. split; [exact Hun|]. split.
    + cbv zeta. set (frozen := freeze_base_networks installed).
      assert (Fte : text_encoder_lora frozen = Some te) by exact Hte.
      assert (Fun : unet_lora (gate_text_encoder_lora frozen config) = Some un).
      { destruct (gate_text_encoder_same_objects frozen config) as (_&_&_&_& -> &_).
        exact Hun. }
      split.
      * unfold gate_text_encoder_lora. now rewrite Fte.
      * unfold gate_unet_lora at 1. now rewrite Fun.
    + destruct (setup_model_after_installation _ _ _ Hinst)
        as (cast & te' & un' & Hcast & Cte & Cun & Heq).
      destruct (cast_adapters_Ok _ _ _ Hcast) as (_ & _ & _ & _ & (_&_&_& Lte & Lun &_) & _).
      destruct (gated_same_objects installed config) as (_&_&_& Gte & Gun &_).
      exists cast. split; [exact Hcast|]. split; [congruence|]. split; [congruence|].
      exact Heq.
  - intros e Hinst. pose proof (install_adapters_raises_ValueError _ _ _ Hinst) as ->.
    split; [reflexivity|]. rewrite setup_model_unfold, Hinst. reflexivity.
  - apply Hsafe; discriminate.
  - apply Hsafe; discriminate.
Qed.

Lemma adapters_present_after_installation_witness :
  exists te un,
    text_encoder_lora demo_installed = Some te /\ unet_lora demo_installed = Some un /\
    exists cast, cast_adapters (gated demo_installed demo_config_both) demo_config_both
                 = Ok cast.
Proof.
  assert (Hinst : install_adapters demo_model demo_config_both = Ok demo_installed)
    by (vm_compute; reflexivity).
  destruct (adapters_present_after_installation demo_model demo_config_both)
    as (Hok & _).
  destruct (Hok demo_installed Hinst) as (te & un & Hte & Hun & _ & cast & Hcast & _).
  exists te, un. split; [exact Hte|]. split; [exact Hun|]. now exists cast.
Defined.

(** ** Frozen base networks *)

(** C5. Evaluation at [demo_model] with both sub-networks trained: weight 0
    is a weight of the base text encoder and weight 2 one of the base
    denoising network, both there before any adapter is installed; after
    [setup_model] both require gradients, because the gate is applied to a
    wrapper that shares them.  Only the VAE stays frozen.
    [after_optimizer_step] does the same to a model whose base networks
    were frozen. *)
Theorem setup_model_unfreezes_base_networks :
  In 0 (parameters (text_encoder demo_model)) /\
  In 2 (parameters (unet demo_model)) /\
  text_encoder_lora demo_model = None /\ unet_lora demo_model = None /\
  setup_model demo_model demo_config_both = Ok demo_trained /\
  requires_grad (tensors demo_trained 0) = true /\
  requires_grad (tensors demo_trained 2) = true /\
  requires_grad (tensors demo_trained 5) = false /\
  requires_grad (tensors (freeze_base_networks demo_installed) 0) = false /\
  requires_grad
    (tensors (after_optimizer_step (freeze_base_networks demo_installed) demo_config_both
                                   (demo_progress 1)) 0) = true.
Proof.
  split; [vm_compute; auto|]. split; [vm_compute; auto|].
  split; [reflexivity|]. split; [reflexivity|].
  split; [vm_compute; reflexivity|]. split; [vm_compute; reflexivity|].
  split; [vm_compute; reflexivity|]. split; [vm_compute; reflexivity|].
  split; vm_compute; reflexivity.
Qed.

(** ** Device placement *)

(** C6. [setup_train_device] puts the VAE on the training device when
    [debug_mode] or [align_prop] holds and on the offload device otherwise,
    the text encoder on the training device when it is trained, or
    [align_prop] holds, or latents are not cached, and on the offload device
    otherwise, the denoising network on the training device, the depth
    estimator (if there is one) on the offload device, and sets the VAE to
    evaluation mode.  When the two devices differ, each "when" is an "if and
    only if". *)
Theorem device_placement (self : StableDiffusionLoRASetup) (model : StableDiffusionModel)
    (config : TrainConfig) :
  let model' := setup_train_device self model config in
  device (vae model') =
    (if debug_mode self || align_prop config then train_device self else temp_device self) /\
  device (text_encoder model') =
    (if train (text_encoder_config config) || align_prop config || negb (latent_caching config)
     then train_device self else temp_device self) /\
  device (unet model') = train_device self /\
  option_map device (depth_estimator model') =
    option_map (fun _ => temp_device self) (depth_estimator model) /\
  training (vae model') = false /\
  (train_device self <> temp_device self ->
   (device (vae model') = train_device self <->
    debug_mode self || align_prop config = true) /\
   (device (text_encoder model') = train_device self <->
    train (text_encoder_config config) || align_prop config || negb (latent_caching config)
    = true)).
Proof.
  cbv zeta.
  assert (Hvae : device (vae (setup_train_device self model config)) =
                 (if debug_mode self || align_prop config
                  then train_device self else temp_device self)).
  { unfold setup_train_device.
    destruct (train (text_encoder_config config)), (train (unet_config config)); reflexivity. }
  assert (Hte : device (text_encoder (setup_train_device self model config)) =
                (if train (text_encoder_config config) || align_prop config
                    || negb (latent_caching config)
                 then train_device self else temp_device self)).
  { unfold setup_train_device.
    destruct (train (text_encoder_config config)), (train (unet_config config)); reflexivity. }
  split; [exact Hvae|]. split; [exact Hte|].
  split; [|split; [|split]].
  - unfold setup_train_device.
    destruct (train (text_encoder_config config)), (train (unet_config config)); reflexivity.
  - unfold setup_train_device.
    destruct (train (text_encoder_config config)), (train (unet_config config));
      cbn; destruct (depth_estimator model); reflexivity.
  - unfold setup_train_device.
    destruct (train (text_encoder_config config)), (train (unet_config config)); reflexivity.
  - intros Hne. rewrite Hvae, Hte. split.
    + destruct (debug_mode self || align_prop config); split; intros H;
        try reflexivity; try discriminate H. now symmetry in H.
    + destruct (train (text_encoder_config config) || align_prop config
                || negb (latent_caching config)); split; intros H;
        try reflexivity; try discriminate H. now symmetry in H.
Qed.

Lemma device_placement_witness :
  device (vae (setup_train_device demo_setup demo_model demo_config_both)) = "cpu" /\
  (device (text_encoder (setup_train_device demo_setup demo_model demo_config_both))
   = train_device demo_setup <->
   train (text_encoder_config demo_config_both) || align_prop demo_config_both
   || negb (latent_caching demo_config_both) = true).
Proof.
  destruct (device_placement demo_setup demo_model demo_config_both)
    as (Hvae & _ & _ & _ & _ & Hiff).
  split; [exact Hvae|].
  apply Hiff. discriminate.
Defined.

(** ** Order of the parameter groups *)

Lemma not_elapsed_without_threshold (unit : TimeUnit) (progress : TrainProgress) :
  single_action_elapsed None unit progress = false.
Proof. reflexivity. Qed.

(** C7. The groups are the text encoder's (when trained) followed by the
    denoising network's (when trained), each made by [create_param_groups]
    from that adapter view's parameters and that sub-network's configured
    learning rate; the names of [report_learning_rates] are built by the
    same two tests in the same order, so the i-th name belongs to the i-th
    group, whichever views the model has.  With both trained and no stop
    threshold, a [setup_model] whose installation blocks complete returns a
    model with both views present, every weight of both requiring
    gradients, and two groups, named "te" and "unet". *)
Theorem parameter_groups_follow_names (model : StableDiffusionModel) (config : TrainConfig) :
  (forall groups,
      create_parameters_for_optimizer model config = Ok groups ->
      lr_names config = (if train (text_encoder_config config) then ["te"] else []) ++
                        (if train (unet_config config) then ["unet"] else []) /\
      Forall2 (fun name group =>
                 (name = "te" /\
                  exists te, text_encoder_lora model = Some te /\
                             group = create_param_groups config (peft_parameters te)
                                       (learning_rate (text_encoder_config config))) \/
                 (name = "unet" /\
                  exists un, unet_lora model = Some un /\
                             group = create_param_groups config (peft_parameters un)
                                       (learning_rate (unet_config config))))
              (lr_names config) groups) /\
  (forall te un,
      text_encoder_lora model = Some te -> unet_lora model = Some un ->
      let te_group := create_param_groups config (peft_parameters te)
                        (learning_rate (text_encoder_config config)) in
      let unet_group := create_param_groups config (peft_parameters un)
                          (learning_rate (unet_config config)) in
      create_parameters_for_optimizer model config =
        Ok ((if train (text_encoder_config config) then [te_group] else []) ++
            (if train (unet_config config) then [unet_group] else []))) /\
  (forall s1 s2,
      train (text_encoder_config config) = true ->
      train (unet_config config) = true ->
      stop_training_after (text_encoder_config config) = None ->
      stop_training_after (unet_config config) = None ->
      installs model config ->
      optimizer_state_dict model = Bound s1 -> ema_state_dict model = Bound s2 ->
      exists model' te un groups,
        setup_model model config = Ok model' /\
        text_encoder_lora model' = Some te /\ unet_lora model' = Some un /\
        (forall p, In p (peft_parameters te) -> requires_grad (tensors model' p) = true) /\
        (forall p, In p (peft_parameters un) -> requires_grad (tensors model' p) = true) /\
        create_parameters_for_optimizer model' config = Ok groups /\
        List.length groups = 2 /\
        lr_names config = ["te"; "unet"]).
Proof.
  split; [|split].
  - intros groups Hret. split; [apply lr_names_shape|].
    rewrite lr_names_shape. revert Hret.
    unfold create_parameters_for_optimizer, lora_parameters.
    destruct (train (text_encoder_config config)), (train (unet_config config)),
      (text_encoder_lora model) as [te|], (unet_lora model) as [un|];
      cbn [bind app]; intros [= <-];
      repeat first
        [ apply Forall2_nil
        | apply Forall2_cons;
          [first [left; split; [reflexivity | eexists; split; reflexivity]
                 | right; split; [reflexivity | eexists; split; reflexivity]]|] ].
  - intros te un Hte Hun. cbv zeta.
    apply (create_parameters_for_optimizer_present _ config te un Hte Hun).
  - intros s1 s2 Tte Tun Ste Sun [installed Hinst] H1 H2.
    destruct (setup_model_returns model installed config s1 s2 Hinst H1 H2) as [model' Hret].
    destruct (setup_model_Ok _ _ _ Hret) as (inst & te & un & _ & Gte & Gun & Hsame & _).
    destruct Hsame as (_&_&_& Mte & Mun & _).
    rewrite Gte in Mte. rewrite Gun in Mun.
    destruct (setup_model_flags _ _ _ Hret) as [Fun Fte].
    assert (Eun : train_unet model' config = true).
    { unfold train_unet, stop_unet_training_elapsed.
      now rewrite Tun, Sun, not_elapsed_without_threshold. }
    assert (Ete : train_text_encoder model' config = true).
    { unfold train_text_encoder, stop_text_encoder_training_elapsed.
      now rewrite Tte, Ste, not_elapsed_without_threshold. }
    exists model', te, un. eexists.
    split; [exact Hret|]. split; [exact Mte|]. split; [exact Mun|].
    split; [|split; [|split; [|split]]].
    + intros p Hin. destruct (in_dec Nat.eq_dec p (peft_parameters un)) as [Hu|Hu].
      * rewrite (Fun un p Mun Hu). exact Eun.
      * rewrite (Fte te p Mte Hin); [exact Ete|].
        intros un' Heq. rewrite Mun in Heq. now injection Heq as <-.
    + intros p Hin. rewrite (Fun un p Mun Hin). exact Eun.
    + apply (create_parameters_for_optimizer_present _ config te un Mte Mun).
    + now rewrite Tte, Tun.
    + rewrite lr_names_shape. now rewrite Tte, Tun.
Qed.

Lemma parameter_groups_follow_names_witness :
  (exists groups,
      create_parameters_for_optimizer demo_installed demo_config_both = Ok groups /\
      List.length groups = 2) /\
  exists model' te un groups,
    setup_model demo_model demo_config_both = Ok model' /\
    text_encoder_lora model' = Some te /\ unet_lora model' = Some un /\
    create_parameters_for_optimizer model' demo_config_both = Ok groups /\
    List.length groups = 2 /\
    lr_names demo_config_both = ["te"; "unet"].
Proof.
  assert (Ite : text_encoder_lora demo_installed = Some demo_te_view)
    by (vm_compute; reflexivity).
  assert (Iun : unet_lora demo_installed = Some demo_unet_view)
    by (vm_compute; reflexivity).
  assert (Hinst : installs demo_model demo_config_both)
    by (exists demo_installed; vm_compute; reflexivity).
  destruct (parameter_groups_follow_names demo_installed demo_config_both)
    as (_ & Horder & _).
  destruct (parameter_groups_follow_names demo_model demo_config_both) as (_ & _ & Hend).
  split.
  - eexists. split; [exact (Horder _ _ Ite Iun) | reflexivity].
  - destruct (Hend None None eq_refl eq_refl eq_refl eq_refl Hinst eq_refl eq_refl)
      as (model' & te & un & groups & Hret & Hte & Hun & _ & _ & Hgroups & Hlen & Hnames).
    exists model', te, un, groups. repeat split; assumption.
Defined.

(** ** The gate over a run *)

Lemma single_action_elapsed_past (n : nat) (unit : TimeUnit) (progress : TrainProgress) :
  past n unit progress -> single_action_elapsed (Some n) unit progress = true.
Proof.
  unfold past, single_action_elapsed. destruct unit; intros H; apply Nat.leb_le; lia.
Qed.

Lemma single_action_elapsed_mono (after : option nat) (unit : TimeUnit)
    (earlier later : TrainProgress) :
  progress_le earlier later ->
  single_action_elapsed after unit earlier = true ->
  single_action_elapsed after unit later = true.
Proof.
  intros [Hepoch Hstep]. unfold single_action_elapsed.
  destruct after as [n|]; [|discriminate].
  destruct unit; rewrite !Nat.leb_le; lia.
Qed.

Lemma gate_closed_stays_closed (enabled : bool) (after : option nat) (unit : TimeUnit)
    (earlier later : TrainProgress) :
  progress_le earlier later ->
  enabled && negb (single_action_elapsed after unit earlier) = false ->
  enabled && negb (single_action_elapsed after unit later) = false.
Proof.
  intros Hle. destruct enabled; [|reflexivity]. cbn [andb].
  rewrite !negb_false_iff. now apply single_action_elapsed_mono.
Qed.

(** C8. Once the train progress is past a sub-network's stop threshold its
    gate is false; and a gate that is false at some progress is false at
    every later progress, where later means that neither the epoch nor the
    global step decreased: over a run the gate never goes from false back
    to true. *)
Theorem phase_gate_one_way (config : TrainConfig) :
  (forall model n,
      stop_training_after (text_encoder_config config) = Some n ->
      past n (stop_training_after_unit (text_encoder_config config)) (train_progress model) ->
      train_text_encoder model config = false) /\
  (forall model n,
      stop_training_after (unet_config config) = Some n ->
      past n (stop_training_after_unit (unet_config config)) (train_progress model) ->
      train_unet model config = false) /\
  (forall earlier later,
      progress_le (train_progress earlier) (train_progress later) ->
      (train_text_encoder earlier config = false ->
       train_text_encoder later config = false) /\
      (train_unet earlier config = false -> train_unet later config = false)).
Proof.
  split; [|split].
  - intros model n Hstop Hpast.
    unfold train_text_encoder, stop_text_encoder_training_elapsed.
    rewrite Hstop, single_action_elapsed_past by exact Hpast.
    apply andb_false_r.
  - intros model n Hstop Hpast.
    unfold train_unet, stop_unet_training_elapsed.
    rewrite Hstop, single_action_elapsed_past by exact Hpast.
    apply andb_false_r.
  - intros earlier later Hle. split.
    + apply gate_closed_stays_closed, Hle.
    + apply gate_closed_stays_closed, Hle.
Qed.

Lemma phase_gate_one_way_witness :
  train_text_encoder (demo_at 11) demo_config_stop = false /\
  (train_text_encoder (demo_at 11) demo_config_stop = false ->
   train_text_encoder (demo_at 20) demo_config_stop = false).
Proof.
  destruct (phase_gate_one_way demo_config_stop) as (Hte & _ & Hmono).
  split.
  - apply (Hte (demo_at 11) 10); [reflexivity | cbn; lia].
  - apply (Hmono (demo_at 11) (demo_at 20)). unfold progress_le. cbn. lia.
Defined.

(** The gate is open before the threshold: the flip does happen. *)
Example gate_open_before_threshold :
  train_text_encoder (demo_at 9) demo_config_stop = true /\
  train_text_encoder (demo_at 10) demo_config_stop = false.
Proof. split; reflexivity. Qed.

(** ** The unused argument of [after_optimizer_step] *)

(** C10. [after_optimizer_step] does not read its [train_progress]
    argument: two calls on the same model and config return the same model
    whatever the two arguments are; the gates are evaluated at
    [model.train_progress]. *)
Theorem after_optimizer_step_ignores_argument (model : StableDiffusionModel)
    (config : TrainConfig) (progress1 progress2 : TrainProgress) :
  after_optimizer_step model config progress1 = after_optimizer_step model config progress2 /\
  after_optimizer_step model config progress1 =
    gate_unet_lora (gate_text_encoder_lora model config) config.
Proof. split; reflexivity. Qed.

(** What the model carries does matter: same argument, different
    [model.train_progress], different flags. *)
Example after_optimizer_step_reads_model_progress :
  requires_grad (tensors (after_optimizer_step (demo_at 9) demo_config_stop (demo_progress 50)) 6)
  = true /\
  requires_grad (tensors (after_optimizer_step (demo_at 11) demo_config_stop (demo_progress 0)) 6)
  = false.
Proof. split; vm_compute; reflexivity. Qed.

(** * Further properties *)

(** ** Failure of the parameter lists *)

(** X1. [create_parameters] and [create_parameters_for_optimizer] fail in
    the same cases, and in no other way: with [AttributeError] on
    [parameters], exactly when a sub-network is trained whose adapter view
    is [None]. *)
Theorem parameter_lists_fail_on_missing_view (model : StableDiffusionModel)
    (config : TrainConfig) :
  let missing :=
    (train (text_encoder_config config) = true /\ text_encoder_lora model = None) \/
    (train (unet_config config) = true /\ unet_lora model = None) in
  (create_parameters model config = Raise (AttributeError "parameters") <-> missing) /\
  (create_parameters_for_optimizer model config = Raise (AttributeError "parameters")
   <-> missing) /\
  (forall e, create_parameters model config = Raise e -> e = AttributeError "parameters") /\
  (forall e, create_parameters_for_optimizer model config = Raise e ->
             e = AttributeError "parameters").
Proof.
  cbv zeta. unfold create_parameters, create_parameters_for_optimizer, lora_parameters.
  destruct (train (text_encoder_config config)), (train (unet_config config)),
    (text_encoder_lora model), (unet_lora model); cbn [bind app];
    (split; [|split; [|split]]);
    try (split; [intros H; try discriminate H; auto; fail | intros [[? ?]|[? ?]]; congruence]);
    try (split; [intros _; auto | reflexivity]);
    try (intros e H; congruence).
Qed.

Lemma parameter_lists_fail_on_missing_view_witness :
  create_parameters demo_model demo_config_both = Raise (AttributeError "parameters") /\
  create_parameters_for_optimizer demo_model demo_config_both
    = Raise (AttributeError "parameters").
Proof.
  destruct (parameter_lists_fail_on_missing_view demo_model demo_config_both)
    as (Hps & Hgroups & _).
  split; [apply Hps | apply Hgroups]; left; split; reflexivity.
Defined.

(** ** What [after_optimizer_step] changes *)

Lemma parameter_ext (x y : TorchParameter) :
  requires_grad x = requires_grad y -> dtype x = dtype y -> x = y.
Proof. destruct x, y. cbn. intros -> ->. reflexivity. Qed.

Lemma requires_grad__dtype (ps : list ParamId) (b : bool) (t : Tensors) (p : ParamId) :
  dtype (requires_grad_ ps b t p) = dtype (t p).
Proof.
  destruct (in_dec Nat.eq_dec p ps) as [Hin|Hout].
  - unfold requires_grad_. fold (write_all (set_requires_grad b) ps t).
    rewrite (write_all_inside (set_requires_grad b)); [reflexivity | reflexivity | assumption].
  - now rewrite requires_grad__outside.
Qed.

Lemma to_dtype_inside (ps : list ParamId) (d : torch_dtype_t) (t : Tensors) (p : ParamId) :
  In p ps -> dtype (to_dtype ps d t p) = d.
Proof.
  intros Hin. unfold to_dtype. fold (write_all (set_dtype d) ps t).
  rewrite (write_all_inside (set_dtype d)); [reflexivity | reflexivity | assumption].
Qed.

Lemma to_dtype_outside (ps : list ParamId) (d : torch_dtype_t) (t : Tensors) (p : ParamId) :
  ~ In p ps -> to_dtype ps d t p = t p.
Proof. apply (write_all_outside (set_dtype d)). Qed.

Lemma gate_text_encoder_lora_dtype (a : StableDiffusionModel) (config : TrainConfig)
    (p : ParamId) :
  dtype (tensors (gate_text_encoder_lora a config) p) = dtype (tensors a p).
Proof.
  unfold gate_text_encoder_lora. destruct (text_encoder_lora a); [|reflexivity].
  cbn [tensors with_tensors]. apply requires_grad__dtype.
Qed.

Lemma gate_unet_lora_dtype (a : StableDiffusionModel) (config : TrainConfig) (p : ParamId) :
  dtype (tensors (gate_unet_lora a config) p) = dtype (tensors a p).
Proof.
  unfold gate_unet_lora. destruct (unet_lora a); [|reflexivity].
  cbn [tensors with_tensors]. apply requires_grad__dtype.
Qed.

Lemma gates_only_write_tensors (a : StableDiffusionModel) (config : TrainConfig) :
  gate_unet_lora (gate_text_encoder_lora a config) config =
  with_tensors a (tensors (gate_unet_lora (gate_text_encoder_lora a config) config)).
Proof.
  unfold gate_unet_lora, gate_text_encoder_lora.
  destruct (text_encoder_lora a) as [te|] eqn:Hte.
  - cbn [unet_lora with_tensors]. destruct (unet_lora a) as [un|] eqn:Hun; reflexivity.
  - destruct (unet_lora a) as [un|] eqn:Hun; destruct a; reflexivity.
Qed.

(** X2. [after_optimizer_step] writes gradient flags and nothing else: the
    model it returns is the one it was given with another tensor heap, in
    which no weight has changed its dtype and the weights no adapter view
    reaches are as they were. *)
Theorem after_optimizer_step_frame (model : StableDiffusionModel) (config : TrainConfig)
    (progress : TrainProgress) :
  after_optimizer_step model config progress =
    with_tensors model (tensors (after_optimizer_step model config progress)) /\
  (forall p, dtype (tensors (after_optimizer_step model config progress) p)
             = dtype (tensors model p)) /\
  (forall p,
      (forall te, text_encoder_lora model = Some te -> ~ In p (peft_parameters te)) ->
      (forall un, unet_lora model = Some un -> ~ In p (peft_parameters un)) ->
      tensors (after_optimizer_step model config progress) p = tensors model p).
Proof.
  unfold after_optimizer_step. split; [apply gates_only_write_tensors|]. split.
  - intros p. now rewrite gate_unet_lora_dtype, gate_text_encoder_lora_dtype.
  - intros p Hte Hun.
    destruct (gate_text_encoder_same_objects model config) as (_&_&_&_& Eun &_).
    rewrite gate_unet_lora_outside by (rewrite Eun; exact Hun).
    now apply gate_text_encoder_lora_outside.
Qed.

Lemma after_optimizer_step_frame_witness :
  tensors (after_optimizer_step demo_installed demo_config_none (demo_progress 3)) 5
  = tensors demo_installed 5.
Proof.
  assert (Ite : text_encoder_lora demo_installed = Some demo_te_view)
    by (vm_compute; reflexivity).
  assert (Iun : unet_lora demo_installed = Some demo_unet_view)
    by (vm_compute; reflexivity).
  destruct (after_optimizer_step_frame demo_installed demo_config_none (demo_progress 3))
    as (_ & _ & Hout).
  apply Hout.
  - intros te Heq. rewrite Ite in Heq. injection Heq as <-. simpl. lia.
  - intros un Heq. rewrite Iun in Heq. injection Heq as <-. simpl. lia.
Defined.

Lemma gates_flags_outside (a : StableDiffusionModel) (config : TrainConfig) (p : ParamId) :
  (forall te, text_encoder_lora a = Some te -> ~ In p (peft_parameters te)) ->
  (forall un, unet_lora a = Some un -> ~ In p (peft_parameters un)) ->
  tensors (gate_unet_lora (gate_text_encoder_lora a config) config) p = tensors a p.
Proof.
  intros Hte Hun.
  destruct (gate_text_encoder_same_objects a config) as (_&_&_&_& Eun &_).
  rewrite gate_unet_lora_outside by (rewrite Eun; exact Hun).
  now apply gate_text_encoder_lora_outside.
Qed.

(** The three regions of the heap under the two gates. *)
Lemma gates_cases (a : StableDiffusionModel) (p : ParamId) :
  (exists un, unet_lora a = Some un /\ In p (peft_parameters un)) \/
  ((forall un, unet_lora a = Some un -> ~ In p (peft_parameters un)) /\
   exists te, text_encoder_lora a = Some te /\ In p (peft_parameters te)) \/
  ((forall un, unet_lora a = Some un -> ~ In p (peft_parameters un)) /\
   (forall te, text_encoder_lora a = Some te -> ~ In p (peft_parameters te))).
Proof.
  destruct (unet_lora a) as [un|].
  - destruct (in_dec Nat.eq_dec p (peft_parameters un)) as [Hu|Hu].
    + left. now exists un.
    + right. assert (Hun : forall un', Some un = Some un' -> ~ In p (peft_parameters un'))
        by (intros un' [= <-]; exact Hu).
      destruct (text_encoder_lora a) as [te|].
      * destruct (in_dec Nat.eq_dec p (peft_parameters te)) as [Ht|Ht].
        -- left. split; [exact Hun|]. now exists te.
        -- right. split; [exact Hun|]. now intros te' [= <-].
      * right. split; [exact Hun|]. discriminate.
  - right. assert (Hun : forall un', @None PeftModel = Some un' -> ~ In p (peft_parameters un'))
      by discriminate.
    destruct (text_encoder_lora a) as [te|].
    + destruct (in_dec Nat.eq_dec p (peft_parameters te)) as [Ht|Ht].
      * left. split; [exact Hun|]. now exists te.
      * right. split; [exact Hun|]. now intros te' [= <-].
    + right. split; [exact Hun|]. discriminate.
Qed.

(** A model on which the gates have nothing to change. *)
Lemma gates_fixed_point (a : StableDiffusionModel) (config : TrainConfig) :
  (forall un p, unet_lora a = Some un -> In p (peft_parameters un) ->
                requires_grad (tensors a p) = train_unet a config) ->
  (forall te p, text_encoder_lora a = Some te -> In p (peft_parameters te) ->
                (forall un, unet_lora a = Some un -> ~ In p (peft_parameters un)) ->
                requires_grad (tensors a p) = train_text_encoder a config) ->
  forall p, tensors (gate_unet_lora (gate_text_encoder_lora a config) config) p = tensors a p.
Proof.
  intros Hun Hte p. destruct (gates_flags a config) as [Gun Gte].
  destruct (gates_cases a p) as [(un & Eun & Iun) | [(Oun & te & Ete & Ite) | (Oun & Ote)]].
  - apply parameter_ext.
    + rewrite (Gun un p Eun Iun). symmetry. now apply Hun with (un := un).
    + now rewrite gate_unet_lora_dtype, gate_text_encoder_lora_dtype.
  - apply parameter_ext.
    + rewrite (Gte te p Ete Ite Oun). symmetry. now apply Hte with (te := te).
    + now rewrite gate_unet_lora_dtype, gate_text_encoder_lora_dtype.
  - now apply gates_flags_outside.
Qed.

(** X3. [after_optimizer_step] is idempotent: a second call, with any
    argument, finds the flags the first one wrote and changes no tensor. *)
Theorem after_optimizer_step_idempotent (model : StableDiffusionModel) (config : TrainConfig)
    (progress1 progress2 : TrainProgress) (p : ParamId) :
  tensors (after_optimizer_step (after_optimizer_step model config progress1) config progress2) p
  = tensors (after_optimizer_step model config progress1) p.
Proof.
  unfold after_optimizer_step.
  set (once := gate_unet_lora (gate_text_encoder_lora model config) config).
  assert (Hsame : same_objects model once).
  { eapply same_objects_trans;
      [apply gate_text_encoder_same_objects | apply gate_unet_same_objects]. }
  destruct (train_flags_same_objects _ _ config Hsame) as [Fte Fun].
  destruct Hsame as (_&_&_& Lte & Lun &_).
  destruct (gates_flags model config) as [Gun Gte]. fold once in Gun, Gte.
  apply gates_fixed_point.
  - intros un q Eun Iun. rewrite Fun. apply Gun with (view := un); congruence.
  - intros te q Ete Ite Oun. rewrite Fte.
    apply Gte with (view := te); [congruence | assumption |].
    intros un Eun. apply Oun. congruence.
Qed.

(** X4. The first [after_optimizer_step] after a [setup_model] that
    returned, with the same config and the train progress not yet advanced,
    changes no tensor: [setup_model] has already applied the same gate. *)
Theorem after_optimizer_step_after_setup (model model' : StableDiffusionModel)
    (config : TrainConfig) (progress : TrainProgress) (p : ParamId) :
  setup_model model config = Ok model' ->
  tensors (after_optimizer_step model' config progress) p = tensors model' p.
Proof.
  intros Hret. destruct (setup_model_flags _ _ _ Hret) as [Fun Fte].
  unfold after_optimizer_step. apply gates_fixed_point.
  - intros un q Eun Iun. now apply Fun with (view := un).
  - intros te q Ete Ite Oun. now apply Fte with (view := te).
Qed.

Lemma after_optimizer_step_after_setup_witness :
  tensors (after_optimizer_step demo_trained demo_config_both (demo_progress 1)) 6
  = tensors demo_trained 6.
Proof.
  apply (after_optimizer_step_after_setup demo_model demo_trained demo_config_both).
  vm_compute. reflexivity.
Defined.

(** ** What [setup_model] returns *)

Lemma gated_only_writes_tensors (installed : StableDiffusionModel) (config : TrainConfig) :
  gated installed config = with_tensors installed (tensors (gated installed config)).
Proof.
  unfold gated.
  rewrite (gates_only_write_tensors (freeze_base_networks installed) config) at 1.
  generalize (tensors (gate_unet_lora
                         (gate_text_encoder_lora (freeze_base_networks installed) config)
                         config)) as t.
  intros t. reflexivity.
Qed.

Lemma cast_adapters_only_writes_tensors (model model' : StableDiffusionModel)
    (config : TrainConfig) :
  cast_adapters model config = Ok model' -> model' = with_tensors model (tensors model').
Proof.
  unfold cast_adapters, cast_lora. intros H.
  destruct (text_encoder_lora model) as [te|] eqn:Hte; [|discriminate H].
  cbn [bind] in H.
  change (unet_lora (with_tensors model
            (to_dtype (peft_parameters te) (torch_dtype (lora_weight_dtype config))
               (tensors model))))
    with (unet_lora model) in H.
  destruct (unet_lora model) as [un|] eqn:Hun; [|discriminate H].
  injection H as <-. reflexivity.
Qed.

Lemma external_calls_with_tensors (a : StableDiffusionModel) (t : Tensors) :
  external_calls (with_tensors a t) = external_calls a.
Proof. reflexivity. Qed.

(** The model that reaches [build_optimizer_and_ema]. *)
Lemma setup_model_cast (model installed : StableDiffusionModel) (config : TrainConfig) :
  install_adapters model config = Ok installed ->
  exists cast te un,
    cast_adapters (gated installed config) config = Ok cast /\
    text_encoder_lora cast = Some te /\ unet_lora cast = Some un /\
    text_encoder_lora installed = Some te /\ unet_lora installed = Some un /\
    optimizer_state_dict cast = optimizer_state_dict model /\
    ema_state_dict cast = ema_state_dict model /\
    external_calls cast = external_calls model /\
    setup_model model config = build_optimizer_and_ema cast config.
Proof.
  intros Hinst.
  destruct (install_adapters_present _ _ _ Hinst) as (te & un & Hte & Hun).
  destruct (install_adapters_keeps_rest _ _ _ Hinst) as (_ & _ & I1 & I2 & Ilog).
  destruct (gated_same_objects installed config) as (_&_&_& Gte & Gun &_).
  rewrite Hte in Gte. rewrite Hun in Gun.
  destruct (cast_adapters_returns _ config te un Gte Gun)
    as (cast & Hcast & (_&_&_& Cte & Cun &_) & [C1 C2]).
  destruct (gated_state_dicts installed config) as [O1 O2].
  exists cast, te, un. split; [exact Hcast|].
  split; [congruence|]. split; [congruence|].
  split; [exact Hte|]. split; [exact Hun|].
  split; [congruence|]. split; [congruence|]. split.
  - rewrite (cast_adapters_only_writes_tensors _ _ _ Hcast), external_calls_with_tensors.
    rewrite gated_only_writes_tensors, external_calls_with_tensors.
    exact Ilog.
  - rewrite setup_model_unfold, Hinst. cbn [bind]. rewrite Hcast. reflexivity.
Qed.

Lemma build_optimizer_and_ema_outcome (model : StableDiffusionModel) (config : TrainConfig)
    (te un : PeftModel) :
  text_encoder_lora model = Some te -> unet_lora model = Some un ->
  let groups :=
    (if train (text_encoder_config config)
     then [create_param_groups config (peft_parameters te)
                               (learning_rate (text_encoder_config config))]
     else []) ++
    (if train (unet_config config)
     then [create_param_groups config (peft_parameters un)
                               (learning_rate (unet_config config))]
     else []) in
  let ps :=
    (if train (text_encoder_config config) then peft_parameters te else []) ++
    (if train (unet_config config) then peft_parameters un else []) in
  (optimizer_state_dict model = Deleted ->
   build_optimizer_and_ema model config = Raise (AttributeError "optimizer_state_dict")) /\
  (forall s1, optimizer_state_dict model = Bound s1 -> ema_state_dict model = Deleted ->
              build_optimizer_and_ema model config = Raise (AttributeError "ema_state_dict")) /\
  (forall s1 s2 model',
      optimizer_state_dict model = Bound s1 -> ema_state_dict model = Bound s2 ->
      build_optimizer_and_ema model config = Ok model' ->
      optimizer model' = Some (create_optimizer groups s1 config) /\
      ema model' = Some (create_ema ps s2 config) /\
      optimizer_state_dict model' = Deleted /\ ema_state_dict model' = Deleted /\
      external_calls model' =
        external_calls model ++
        (if rescale_noise_scheduler_to_zero_terminal_snr config
         then [rescale_noise_scheduler_call; force_v_prediction_call] else []) ++
        [setup_optimizations_call]).
Proof.
  intros Hte Hun. cbv zeta. unfold build_optimizer_and_ema.
  set (scheduled := if rescale_noise_scheduler_to_zero_terminal_snr config
                    then force_v_prediction (rescale_noise_scheduler model) else model).
  assert (Hs : text_encoder_lora scheduled = Some te /\ unet_lora scheduled = Some un /\
               optimizer_state_dict scheduled = optimizer_state_dict model /\
               ema_state_dict scheduled = ema_state_dict model /\
               external_calls scheduled =
                 external_calls model ++
                 (if rescale_noise_scheduler_to_zero_terminal_snr config
                  then [rescale_noise_scheduler_call; force_v_prediction_call] else [])).
  { unfold scheduled.
    destruct (rescale_noise_scheduler_to_zero_terminal_snr config).
    - repeat split; try assumption. cbn. now rewrite <- app_assoc.
    - repeat split; try assumption. now rewrite app_nil_r. }
  destruct Hs as (Ste & Sun & S1 & S2 & Slog). clearbody scheduled.
  rewrite (create_parameters_for_optimizer_present _ config te un Ste Sun).
  cbn [bind]. rewrite S1.
  split; [|split].
  - intros ->. reflexivity.
  - intros s1 -> Hd. cbn [bind getattr].
    erewrite (create_parameters_present _ config te un) by (cbn; assumption).
    cbn [bind with_optimizer ema_state_dict]. rewrite S2, Hd. reflexivity.
  - intros s1 s2 model' -> Hb. cbn [bind getattr].
    erewrite (create_parameters_present _ config te un) by (cbn; assumption).
    cbn [bind with_optimizer ema_state_dict]. rewrite S2, Hb. cbn [bind getattr].
    intros [= <-]. unfold setup_optimizations.
    cbn [optimizer ema optimizer_state_dict ema_state_dict external_calls call
         with_ema with_optimizer].
    rewrite Slog, <- app_assoc. repeat split.
Qed.

Lemma peft_rejects_rank (base : Module) (cfg : LoraConfig) :
  (r cfg <= 0)%Z -> peft_accepts base cfg = false.
Proof.
  intros Hr. unfold peft_accepts.
  destruct (Z.ltb_spec 0 (r cfg)) as [Hpos|_]; [lia | reflexivity].
Qed.

Lemma peft_rejects_no_target (base : Module) (cfg : LoraConfig) :
  target_modules cfg = [] -> peft_accepts base cfg = false.
Proof.
  intros Hnone. unfold peft_accepts.
  assert (Hno : existsb (is_target cfg) (layers base) = false).
  { induction (layers base) as [|l ls IH]; [reflexivity|].
    cbn [existsb]. rewrite IH. unfold is_target. now rewrite Hnone. }
  rewrite Hno. now rewrite andb_false_r.
Qed.

Lemma install_rejected (model : StableDiffusionModel) (config : TrainConfig) :
  (text_encoder_lora model = None ->
   peft_accepts (text_encoder model) (make_lora_config config (text_encoder model)) = false ->
   install_adapters model config = Raise ValueError) /\
  (forall view, text_encoder_lora model = Some view -> unet_lora model = None ->
   peft_accepts (unet model) (make_lora_config config (unet model)) = false ->
   install_adapters model config = Raise ValueError).
Proof.
  split.
  - intros Hnone Hrej. unfold install_adapters, install_text_encoder_lora, get_peft_model.
    now rewrite Hnone, Hrej.
  - intros view Hv Hnone Hrej. unfold install_adapters, install_text_encoder_lora.
    rewrite Hv. cbn [bind]. unfold install_unet_lora, get_peft_model.
    now rewrite Hnone, Hrej.
Qed.

(** The installation blocks complete when the library accepts what each
    missing view asks for. *)
Lemma install_accepted (model : StableDiffusionModel) (config : TrainConfig) :
  (text_encoder_lora model = None ->
   peft_accepts (text_encoder model) (make_lora_config config (text_encoder model)) = true) ->
  (unet_lora model = None ->
   peft_accepts (unet model) (make_lora_config config (unet model)) = true) ->
  installs model config.
Proof.
  intros Hte Hun.
  assert (Hunet : forall a, unet_lora a = unet_lora model -> unet a = unet model ->
                            exists installed, install_unet_lora a config = Ok installed).
  { intros a El Eu. unfold install_unet_lora. rewrite El.
    destruct (unet_lora model) as [un|]; [now exists a|].
    unfold get_peft_model. rewrite Eu, (Hun eq_refl).
    destruct (inject_adapter _ _ _ _) as [[ls fresh] n]. cbn [bind]. eexists. reflexivity. }
  unfold installs, install_adapters, install_text_encoder_lora.
  destruct (text_encoder_lora model) as [te|].
  - cbn [bind]. now apply Hunet.
  - unfold get_peft_model. rewrite (Hte eq_refl).
    destruct (inject_adapter _ _ _ _) as [[ls fresh] n]. cbn [bind].
    now apply Hunet.
Qed.

(** X5. [setup_model] ends with whatever error ended the installation
    blocks, which can only be the [ValueError] of [get_peft_model]: so it
    does when the text encoder has no adapter view yet and
    [config.lora_rank] is not positive, or the text encoder has no Linear or
    Conv2d layer.  When the installation blocks complete, [setup_model]
    returns exactly when the two state-dict attributes are still bound on
    entry, and otherwise fails with [AttributeError] on the first of the
    two, in reading order, that has been deleted. *)
Theorem setup_model_outcome (model : StableDiffusionModel) (config : TrainConfig) :
  (forall e, install_adapters model config = Raise e ->
             e = ValueError /\ setup_model model config = Raise ValueError) /\
  (text_encoder_lora model = None -> (lora_rank config <= 0)%Z ->
   setup_model model config = Raise ValueError) /\
  (text_encoder_lora model = None -> lora_target_modules (text_encoder model) = [] ->
   setup_model model config = Raise ValueError) /\
  (forall installed,
      install_adapters model config = Ok installed ->
      (optimizer_state_dict model = Deleted ->
       setup_model model config = Raise (AttributeError "optimizer_state_dict")) /\
      (forall s1, optimizer_state_dict model = Bound s1 -> ema_state_dict model = Deleted ->
                  setup_model model config = Raise (AttributeError "ema_state_dict")) /\
      (forall s1 s2, optimizer_state_dict model = Bound s1 ->
                     ema_state_dict model = Bound s2 ->
                     exists model', setup_model model config = Ok model')).
Proof.
  assert (Hraise : forall e, install_adapters model config = Raise e ->
                             e = ValueError /\ setup_model model config = Raise ValueError).
  { intros e Hinst. pose proof (install_adapters_raises_ValueError _ _ _ Hinst) as ->.
    split; [reflexivity|]. rewrite setup_model_unfold, Hinst. reflexivity. }
  destruct (install_rejected model config) as [Hrej _].
  split; [exact Hraise|]. split; [|split].
  - intros Hnone Hrank. apply (Hraise ValueError), Hrej; [exact Hnone|].
    now apply peft_rejects_rank.
  - intros Hnone Hno. apply (Hraise ValueError), Hrej; [exact Hnone|].
    now apply peft_rejects_no_target.
  - intros installed Hinst.
    destruct (setup_model_cast _ _ config Hinst)
      as (cast & te & un & _ & Cte & Cun & _ & _ & O1 & O2 & _ & ->).
    destruct (build_optimizer_and_ema_outcome cast config te un Cte Cun) as (Hd1 & Hd2 & _).
    split; [|split].
    + intros Hdel. apply Hd1. congruence.
    + intros s1 Hb Hdel. apply (Hd2 s1); congruence.
    + intros s1 s2 H1 H2.
      apply build_optimizer_and_ema_returns with (te := te) (un := un) (s1 := s1) (s2 := s2);
        congruence.
Qed.

Lemma setup_model_outcome_witness :
  setup_model demo_trained demo_config_both = Raise (AttributeError "optimizer_state_dict") /\
  (exists model', setup_model demo_model demo_config_both = Ok model') /\
  setup_model demo_model
    {| text_encoder_config := demo_part true 1 None; unet_config := demo_part true 1 None;
       lora_rank := 0%Z; lora_alpha_config := 1%Q; dropout_probability := 0%Q;
       lora_weight_dtype := FLOAT_32;
       rescale_noise_scheduler_to_zero_terminal_snr := false;
       align_prop := false; latent_caching := true |} = Raise ValueError.
Proof.
  assert (Htrained : install_adapters demo_trained demo_config_both = Ok demo_trained)
    by (vm_compute; reflexivity).
  assert (Hinst : install_adapters demo_model demo_config_both = Ok demo_installed)
    by (vm_compute; reflexivity).
  split; [|split].
  - destruct (setup_model_outcome demo_trained demo_config_both) as (_ & _ & _ & Hok).
    destruct (Hok _ Htrained) as (Hdel & _). apply Hdel. vm_compute. reflexivity.
  - destruct (setup_model_outcome demo_model demo_config_both) as (_ & _ & _ & Hok).
    destruct (Hok _ Hinst) as (_ & _ & Hret). apply (Hret None None); reflexivity.
  - match goal with
    | |- setup_model _ ?cfg = _ =>
        destruct (setup_model_outcome demo_model cfg) as (_ & Hrank & _)
    end.
    apply Hrank; [reflexivity | cbn; lia].
Defined.

Lemma setup_model_built (model model' : StableDiffusionModel) (config : TrainConfig) :
  setup_model model config = Ok model' ->
  exists te un s1 s2,
    optimizer_state_dict model = Bound s1 /\ ema_state_dict model = Bound s2 /\
    text_encoder_lora model' = Some te /\ unet_lora model' = Some un /\
    optimizer model' =
      Some (create_optimizer
              ((if train (text_encoder_config config)
                then [create_param_groups config (peft_parameters te)
                                          (learning_rate (text_encoder_config config))]
                else []) ++
               (if train (unet_config config)
                then [create_param_groups config (peft_parameters un)
                                          (learning_rate (unet_config config))]
                else []))
              s1 config) /\
    ema model' =
      Some (create_ema
              ((if train (text_encoder_config config) then peft_parameters te else []) ++
               (if train (unet_config config) then peft_parameters un else []))
              s2 config) /\
    optimizer_state_dict model' = Deleted /\ ema_state_dict model' = Deleted /\
    external_calls model' =
      external_calls model ++
      (if rescale_noise_scheduler_to_zero_terminal_snr config
       then [rescale_noise_scheduler_call; force_v_prediction_call] else []) ++
      [setup_optimizations_call].
Proof.
  intros Hret.
  destruct (setup_model_Ok _ _ _ Hret) as (installed & _ & _ & Hinst & _).
  destruct (setup_model_cast _ _ config Hinst)
    as (cast & te & un & _ & Cte & Cun & _ & _ & O1 & O2 & Olog & Heq).
  rewrite Heq in Hret.
  destruct (build_optimizer_and_ema_outcome cast config te un Cte Cun) as (Hd1 & Hd2 & Hok).
  destruct (build_optimizer_and_ema_Ok _ _ _ Hret) as [(_&_&_& Mte & Mun &_) _].
  destruct (optimizer_state_dict cast) as [|s1] eqn:E1.
  { rewrite (Hd1 eq_refl) in Hret. discriminate Hret. }
  destruct (ema_state_dict cast) as [|s2] eqn:E2.
  { rewrite (Hd2 s1 eq_refl eq_refl) in Hret. discriminate Hret. }
  destruct (Hok s1 s2 model' eq_refl eq_refl Hret) as (Ho & He & D1 & D2 & Hlog).
  exists te, un, s1, s2.
  split; [congruence|]. split; [congruence|].
  split; [congruence|]. split; [congruence|].
  split; [exact Ho|]. split; [exact He|]. split; [exact D1|]. split; [exact D2|].
  now rewrite <- Olog.
Qed.

(** X6. [setup_model] cannot be run twice on the same model: a call that
    returns has deleted both state-dict attributes, so a second call, with
    any config, fails with [AttributeError] on [optimizer_state_dict]. *)
Theorem setup_model_not_reentrant (model model' : StableDiffusionModel)
    (config config' : TrainConfig) :
  setup_model model config = Ok model' ->
  optimizer_state_dict model' = Deleted /\ ema_state_dict model' = Deleted /\
  setup_model model' config' = Raise (AttributeError "optimizer_state_dict").
Proof.
  intros Hret.
  destruct (setup_model_built _ _ _ Hret) as (te0 & un0 &_&_&_&_& Mte & Mun &_&_& D1 & D2 & _).
  split; [exact D1|]. split; [exact D2|].
  pose proof (install_adapters_noop model' config' te0 un0 Mte Mun) as Hinst.
  destruct (setup_model_cast _ _ config' Hinst)
    as (cast & te & un & _ & Cte & Cun & _ & _ & O1 & _ & _ & ->).
  destruct (build_optimizer_and_ema_outcome cast config' te un Cte Cun) as (Hd1 & _ & _).
  apply Hd1. congruence.
Qed.

Lemma setup_model_not_reentrant_witness :
  setup_model demo_trained demo_config_none = Raise (AttributeError "optimizer_state_dict").
Proof.
  apply (setup_model_not_reentrant demo_model demo_trained demo_config_both demo_config_none).
  vm_compute. reflexivity.
Defined.

(** X7. The optimizer [setup_model] stores is made from the groups of the
    two adapter views of the returned model, text encoder first, and from
    the optimizer state dict found on entry; the EMA is made from the same
    views' parameters in the same order and from the EMA state dict found on
    entry. *)
Theorem setup_model_builds_optimizer_and_ema (model model' : StableDiffusionModel)
    (config : TrainConfig) :
  setup_model model config = Ok model' ->
  exists te un s1 s2 groups ps,
    text_encoder_lora model' = Some te /\ unet_lora model' = Some un /\
    optimizer_state_dict model = Bound s1 /\ ema_state_dict model = Bound s2 /\
    create_parameters_for_optimizer model' config = Ok groups /\
    create_parameters model' config = Ok ps /\
    optimizer model' = Some (create_optimizer groups s1 config) /\
    ema model' = Some (create_ema ps s2 config) /\
    ps = (if train (text_encoder_config config) then peft_parameters te else []) ++
         (if train (unet_config config) then peft_parameters un else []).
Proof.
  intros Hret.
  destruct (setup_model_built _ _ _ Hret)
    as (te & un & s1 & s2 & H1 & H2 & Mte & Mun & Ho & He & _).
  exists te, un, s1, s2. eexists. eexists.
  split; [exact Mte|]. split; [exact Mun|]. split; [exact H1|]. split; [exact H2|].
  split; [apply (create_parameters_for_optimizer_present _ config te un Mte Mun)|].
  split; [apply (create_parameters_present _ config te un Mte Mun)|].
  split; [exact Ho|]. split; [exact He | reflexivity].
Qed.

Lemma setup_model_builds_optimizer_and_ema_witness :
  exists groups ps,
    optimizer demo_trained = Some (create_optimizer groups None demo_config_both) /\
    ema demo_trained = Some (create_ema ps None demo_config_both) /\
    ps = peft_parameters demo_te_view ++ peft_parameters demo_unet_view.
Proof.
  assert (Hret : setup_model demo_model demo_config_both = Ok demo_trained)
    by (vm_compute; reflexivity).
  assert (Tte : text_encoder_lora demo_trained = Some demo_te_view)
    by (vm_compute; reflexivity).
  assert (Tun : unet_lora demo_trained = Some demo_unet_view)
    by (vm_compute; reflexivity).
  destruct (setup_model_builds_optimizer_and_ema _ _ _ Hret)
    as (te & un & s1 & s2 & groups & ps & Mte & Mun & H1 & H2 & _ & _ & Ho & He & Hps).
  rewrite Tte in Mte. injection Mte as <-.
  rewrite Tun in Mun. injection Mun as <-.
  injection H1 as <-. injection H2 as <-.
  exists groups, ps. split; [exact Ho|]. split; [exact He | exact Hps].
Defined.

(** X8. The optimizer made by [setup_model] has one parameter group per
    name of [report_learning_rates]: with a scheduler that returns one rate
    per group of that optimizer, the assertion of [report_learning_rates]
    holds, whatever [maybe_adjust_lrs] does. *)
Theorem report_learning_rates_after_setup
    (maybe_adjust_lrs : TrainConfig -> list Q -> option Optimizer -> list Q)
    (model model' : StableDiffusionModel) (config : TrainConfig) :
  setup_model model config = Ok model' ->
  exists groups state,
    optimizer model' = Some (create_optimizer groups state config) /\
    List.length groups = List.length (lr_names config) /\
    forall scheduler tensorboard,
      List.length (get_last_lr scheduler) = List.length groups ->
      exists tensorboard',
        report_learning_rates maybe_adjust_lrs model' config scheduler tensorboard
        = Ok tensorboard'.
Proof.
  intros Hret.
  destruct (setup_model_built _ _ _ Hret) as (te & un & s1 & _ & _ & _ & _ & _ & Ho & _).
  eexists. exists s1. split; [exact Ho|].
  assert (Hlen : forall (A B : Type) (a1 a2 : A) (b1 b2 : B) (x y : bool),
             List.length ((if x then [a1] else []) ++ (if y then [a2] else [])) =
             List.length ((if x then [b1] else []) ++ (if y then [b2] else [])))
    by (intros; destruct x, y; reflexivity).
  split.
  - rewrite lr_names_shape. apply Hlen.
  - intros scheduler tensorboard Hn. unfold report_learning_rates.
    rewrite lr_names_shape, Hn, (Hlen _ _ _ _ "te" "unet"), Nat.eqb_refl.
    cbn [negb]. eexists. reflexivity.
Qed.

Lemma report_learning_rates_after_setup_witness :
  exists groups state,
    optimizer demo_trained = Some (create_optimizer groups state demo_config_both) /\
    List.length groups = List.length (lr_names demo_config_both).
Proof.
  assert (Hret : setup_model demo_model demo_config_both = Ok demo_trained)
    by (vm_compute; reflexivity).
  destruct (report_learning_rates_after_setup keep_lrs _ _ _ Hret)
    as (groups & state & Ho & Hlen & _).
  exists groups, state. split; [exact Ho | exact Hlen].
Defined.

(** X9. A [setup_model] that returns has made its outside calls in this
    order: the noise-scheduler rescale followed by the switch to
    v-prediction, both only when
    [rescale_noise_scheduler_to_zero_terminal_snr] is set, then
    [setup_optimizations], after whatever calls the model had seen before. *)
Theorem setup_model_call_order (model model' : StableDiffusionModel) (config : TrainConfig) :
  setup_model model config = Ok model' ->
  external_calls model' =
    external_calls model ++
    (if rescale_noise_scheduler_to_zero_terminal_snr config
     then [rescale_noise_scheduler_call; force_v_prediction_call] else []) ++
    [setup_optimizations_call].
Proof.
  intros Hret.
  now destruct (setup_model_built _ _ _ Hret) as (_&_&_&_&_&_&_&_&_&_&_&_& Hlog).
Qed.

Lemma setup_model_call_order_witness :
  external_calls demo_trained = [setup_optimizations_call].
Proof.
  apply (setup_model_call_order demo_model demo_trained demo_config_both).
  vm_compute. reflexivity.
Defined.

Lemma setup_model_tensors (model model' : StableDiffusionModel) (config : TrainConfig) :
  setup_model model config = Ok model' ->
  exists installed te un,
    install_adapters model config = Ok installed /\
    text_encoder_lora model' = Some te /\ unet_lora model' = Some un /\
    text_encoder_lora installed = Some te /\ unet_lora installed = Some un /\
    vae model' = vae model /\
    tensors model' =
      to_dtype (peft_parameters un) (torch_dtype (lora_weight_dtype config))
        (to_dtype (peft_parameters te) (torch_dtype (lora_weight_dtype config))
           (tensors (gated installed config))).
Proof.
  rewrite setup_model_unfold. intros H.
  destruct (install_adapters model config) as [installed|e] eqn:Hinst; [|discriminate H].
  cbn [bind] in H. bind_inv H.
  apply cast_adapters_Ok in E. destruct E as (te & un & Hte & Hun & Hsame & Ht).
  apply build_optimizer_and_ema_Ok in H. destruct H as [Hsame' Ht'].
  destruct (same_objects_trans _ _ _ Hsame Hsame') as (_&_& Mvae & Mte & Mun &_).
  destruct (gated_same_objects installed config) as (_&_& Gvae & Gte & Gun &_).
  destruct (install_adapters_keeps_rest _ _ _ Hinst) as (Ivae & _).
  exists installed, te, un. split; [reflexivity|].
  split; [congruence|]. split; [congruence|].
  split; [congruence|]. split; [congruence|]. split.
  - congruence.
  - now rewrite Ht', Ht.
Qed.

(** X10. After a [setup_model] that returned, every weight reached through
    either adapter view has the dtype [config.lora_weight_dtype] stands
    for. *)
Theorem setup_model_casts_adapter_weights (model model' : StableDiffusionModel)
    (config : TrainConfig) (view : PeftModel) (p : ParamId) :
  setup_model model config = Ok model' ->
  text_encoder_lora model' = Some view \/ unet_lora model' = Some view ->
  In p (peft_parameters view) ->
  dtype (tensors model' p) = torch_dtype (lora_weight_dtype config).
Proof.
  intros Hret Hview Hin.
  destruct (setup_model_tensors _ _ _ Hret)
    as (installed & te & un & _ & Mte & Mun & _ & _ & _ & ->).
  destruct (in_dec Nat.eq_dec p (peft_parameters un)) as [Hu|Hu].
  - now apply to_dtype_inside.
  - rewrite to_dtype_outside by exact Hu.
    apply to_dtype_inside.
    destruct Hview as [Hv|Hv].
    + rewrite Mte in Hv. now injection Hv as ->.
    + rewrite Mun in Hv. injection Hv as ->. contradiction.
Qed.

Lemma setup_model_casts_adapter_weights_witness :
  dtype (tensors demo_trained 0) = torch_dtype (lora_weight_dtype demo_config_both).
Proof.
  apply (setup_model_casts_adapter_weights demo_model demo_trained demo_config_both
           demo_te_view 0).
  - vm_compute. reflexivity.
  - left. vm_compute. reflexivity.
  - simpl. tauto.
Defined.

Lemma freeze_base_networks_vae (a : StableDiffusionModel) (p : ParamId) :
  In p (parameters (vae a)) ->
  requires_grad (tensors (freeze_base_networks a) p) = false.
Proof.
  intros Hin. unfold freeze_base_networks. cbn [tensors with_tensors vae].
  now apply requires_grad__inside.
Qed.

(** X11. After a [setup_model] that returned, every VAE weight that neither
    adapter view also reaches is frozen, whatever its flag was on entry and
    whatever the config. *)
Theorem setup_model_freezes_vae (model model' : StableDiffusionModel)
    (config : TrainConfig) (p : ParamId) :
  setup_model model config = Ok model' ->
  In p (parameters (vae model')) ->
  (forall te, text_encoder_lora model' = Some te -> ~ In p (peft_parameters te)) ->
  (forall un, unet_lora model' = Some un -> ~ In p (peft_parameters un)) ->
  requires_grad (tensors model' p) = false.
Proof.
  intros Hret Hin Hte Hun.
  destruct (setup_model_tensors _ _ _ Hret)
    as (installed & te & un & Hinst & Mte & Mun & Ite & Iun & Mvae & ->).
  rewrite !to_dtype_requires_grad. unfold gated.
  set (frozen := freeze_base_networks installed).
  assert (Fte : text_encoder_lora frozen = Some te) by exact Ite.
  assert (Fun : unet_lora frozen = Some un) by exact Iun.
  rewrite gates_flags_outside.
  - apply freeze_base_networks_vae.
    destruct (install_adapters_keeps_rest _ _ _ Hinst) as [-> _]. now rewrite <- Mvae.
  - intros te' Heq. apply Hte. congruence.
  - intros un' Heq. apply Hun. congruence.
Qed.

Lemma setup_model_freezes_vae_witness :
  requires_grad (tensors demo_trained 5) = false.
Proof.
  assert (Tte : text_encoder_lora demo_trained = Some demo_te_view)
    by (vm_compute; reflexivity).
  assert (Tun : unet_lora demo_trained = Some demo_unet_view)
    by (vm_compute; reflexivity).
  apply (setup_model_freezes_vae demo_model demo_trained demo_config_both 5).
  - vm_compute. reflexivity.
  - vm_compute. auto.
  - intros te Heq. rewrite Tte in Heq. injection Heq as <-. simpl. lia.
  - intros un Heq. rewrite Tun in Heq. injection Heq as <-. simpl. lia.
Defined.

(** ** More on [setup_train_device] *)

(** X12. [setup_train_device] sets the text encoder to training mode
    exactly when it is trained and the denoising network likewise; it moves
    and switches modules only: the tensor heap with its gradient flags, the
    adapter views, the weights each network owns, the optimizer and the
    train progress are as before. *)
Theorem setup_train_device_modes (self : StableDiffusionLoRASetup)
    (model : StableDiffusionModel) (config : TrainConfig) :
  let model' := setup_train_device self model config in
  training (text_encoder model') = train (text_encoder_config config) /\
  training (unet model') = train (unet_config config) /\
  tensors model' = tensors model /\
  text_encoder_lora model' = text_encoder_lora model /\
  unet_lora model' = unet_lora model /\
  parameters (text_encoder model') = parameters (text_encoder model) /\
  parameters (unet model') = parameters (unet model) /\
  parameters (vae model') = parameters (vae model) /\
  optimizer model' = optimizer model /\
  train_progress model' = train_progress model.
Proof.
  cbv zeta. unfold setup_train_device.
  destruct (train (text_encoder_config config)), (train (unet_config config));
    repeat split.
Qed.

Lemma model_ext (a b : StableDiffusionModel) :
  tensors a = tensors b -> next_param a = next_param b ->
  text_encoder a = text_encoder b -> unet a = unet b -> vae a = vae b ->
  depth_estimator a = depth_estimator b ->
  text_encoder_lora a = text_encoder_lora b -> unet_lora a = unet_lora b ->
  train_progress a = train_progress b ->
  optimizer a = optimizer b -> optimizer_state_dict a = optimizer_state_dict b ->
  ema a = ema b -> ema_state_dict a = ema_state_dict b ->
  external_calls a = external_calls b ->
  a = b.
Proof. destruct a, b. cbn. intros. subst. reflexivity. Qed.

(** X13. The last [setup_train_device] wins: whatever setup and config an
    earlier call used, a later call returns the same model as if it had been
    the only one.  In particular the method is idempotent. *)
Theorem setup_train_device_last_wins (self1 self2 : StableDiffusionLoRASetup)
    (model : StableDiffusionModel) (config1 config2 : TrainConfig) :
  setup_train_device self2 (setup_train_device self1 model config1) config2
  = setup_train_device self2 model config2.
Proof.
  unfold setup_train_device.
  destruct (train (text_encoder_config config1)), (train (unet_config config1)),
    (train (text_encoder_config config2)), (train (unet_config config2));
    apply model_ext; try reflexivity; cbn; destruct (depth_estimator model); reflexivity.
Qed.

(** ** More on [report_learning_rates] *)

Lemma lr_scalars_steps (step : nat) (entries : list (string * Q)) :
  Forall (fun s => scalar_step s = step) (map (lr_scalar step) entries).
Proof.
  induction entries as [|[name lr] entries IH]; constructor; [reflexivity | exact IH].
Qed.

Lemma lr_scalars_tags (step : nat) (names : list string) (lrs : list Q) :
  map tag (map (lr_scalar step) (combine names lrs))
  = map (String.append "lr/") (firstn (List.length lrs) names) /\
  map scalar_value (map (lr_scalar step) (combine names lrs))
  = firstn (List.length names) lrs.
Proof.
  revert lrs. induction names as [|name names IH]; intros [|lr lrs]; try (split; reflexivity).
  destruct (IH lrs) as [H1 H2]. cbn. rewrite H1, H2. split; reflexivity.
Qed.

(** X14. Whatever [maybe_adjust_lrs] returns, a [report_learning_rates]
    that passes its assertion keeps every scalar already in the sink and
    appends, for the first min(number of names, number of adjusted rates)
    names in order, the scalar lr/<name> with the adjusted rate at the same
    position, all at [model.train_progress.global_step]: the names beyond
    the adjusted rates get no scalar. *)
Theorem report_learning_rates_emits
    (maybe_adjust_lrs : TrainConfig -> list Q -> option Optimizer -> list Q)
    (model : StableDiffusionModel) (config : TrainConfig)
    (scheduler : Scheduler) (tensorboard : SummaryWriter) :
  List.length (get_last_lr scheduler) = List.length (lr_names config) ->
  let adjusted := maybe_adjust_lrs config (get_last_lr scheduler) (optimizer model) in
  exists emitted,
    report_learning_rates maybe_adjust_lrs model config scheduler tensorboard
      = Ok (tensorboard ++ emitted) /\
    List.length emitted = Nat.min (List.length (lr_names config)) (List.length adjusted) /\
    map tag emitted
      = map (String.append "lr/") (firstn (List.length adjusted) (lr_names config)) /\
    map scalar_value emitted = firstn (List.length (lr_names config)) adjusted /\
    Forall (fun s => scalar_step s = global_step (train_progress model)) emitted.
Proof.
  intros Hlen. cbv zeta. unfold report_learning_rates.
  rewrite Hlen, Nat.eqb_refl. cbn [negb]. rewrite add_scalars_app.
  eexists. split; [reflexivity|].
  split; [now rewrite length_map, length_combine|].
  destruct (lr_scalars_tags (global_step (train_progress model)) (lr_names config)
              (maybe_adjust_lrs config (get_last_lr scheduler) (optimizer model)))
    as [Htags Hvalues].
  split; [exact Htags|]. split; [exact Hvalues|]. apply lr_scalars_steps.
Qed.

Lemma report_learning_rates_emits_witness :
  exists emitted,
    report_learning_rates (fun _ _ _ => [(1 # 2)%Q]) demo_model demo_config_both
      demo_scheduler [] = Ok ([] ++ emitted) /\
    map tag emitted = ["lr/te"].
Proof.
  destruct (report_learning_rates_emits (fun _ _ _ => [(1 # 2)%Q]) demo_model
              demo_config_both demo_scheduler [] eq_refl)
    as (emitted & Hret & _ & Htags & _).
  exists emitted. split; [exact Hret | exact Htags].
Defined.

(** ** The adapters [setup_model] installs *)

Lemma lora_target_modules_spec (base : Module) (name : string) :
  In name (lora_target_modules base) <->
  exists kind, In (name, kind) (named_modules base) /\ (kind = Linear \/ kind = Conv2d).
Proof.
  unfold lora_target_modules. rewrite in_map_iff. split.
  - intros ([n k] & <- & Hin). apply filter_In in Hin. destruct Hin as [Hin Hk].
    exists k. split; [exact Hin|]. destruct k; cbn in Hk; auto; discriminate.
  - intros (k & Hin & Hk). exists (name, k). split; [reflexivity|].
    apply filter_In. split; [exact Hin|]. destruct Hk as [-> | ->]; reflexivity.
Qed.

Lemma install_adapters_fresh_views (model installed : StableDiffusionModel)
    (config : TrainConfig) :
  install_adapters model config = Ok installed ->
  (text_encoder_lora model = None ->
   exists view, text_encoder_lora installed = Some view /\
                active_adapter view = "lora_te" /\
                peft_config view = make_lora_config config (text_encoder model)) /\
  (unet_lora model = None ->
   exists view, unet_lora installed = Some view /\
                active_adapter view = "lora_unet" /\
                peft_config view = make_lora_config config (unet model)).
Proof.
  intros H. destruct (install_adapters_Ok _ _ _ H) as (middle & Hte & Hun).
  destruct (install_text_encoder_lora_Ok _ _ _ Hte) as (_ & Kl & Ku &_&_&_&_&_&_& Fte).
  destruct (install_unet_lora_Ok _ _ _ Hun) as (_ & Lte &_&_&_&_&_&_&_& Fun).
  split; intros Hnone.
  - destruct (Fte Hnone) as (view & Hv & Hname & Hcfg).
    exists view. split; [congruence|]. split; assumption.
  - destruct Fun as (view & Hv & Hname & Hcfg); [congruence|].
    exists view. split; [exact Hv|]. split; [exact Hname|]. now rewrite Hcfg, Ku.
Qed.

(** X15. A [setup_model] that returns and found no text-encoder adapter
    leaves one named lora_te, with the rank, alpha and dropout of the
    config, targeting exactly the names of the Linear and Conv2d layers the
    text encoder had on entry, and no other layer; likewise lora_unet for
    the denoising network. *)
Theorem setup_model_installs_named_adapters (model model' : StableDiffusionModel)
    (config : TrainConfig) :
  setup_model model config = Ok model' ->
  (text_encoder_lora model = None ->
   exists view,
     text_encoder_lora model' = Some view /\ active_adapter view = "lora_te" /\
     r (peft_config view) = lora_rank config /\
     lora_alpha (peft_config view) = lora_alpha_config config /\
     lora_dropout (peft_config view) = dropout_probability config /\
     forall name,
       In name (target_modules (peft_config view)) <->
       exists kind, In (name, kind) (named_modules (text_encoder model)) /\
                    (kind = Linear \/ kind = Conv2d)) /\
  (unet_lora model = None ->
   exists view,
     unet_lora model' = Some view /\ active_adapter view = "lora_unet" /\
     r (peft_config view) = lora_rank config /\
     lora_alpha (peft_config view) = lora_alpha_config config /\
     lora_dropout (peft_config view) = dropout_probability config /\
     forall name,
       In name (target_modules (peft_config view)) <->
       exists kind, In (name, kind) (named_modules (unet model)) /\
                    (kind = Linear \/ kind = Conv2d)).
Proof.
  intros Hret.
  destruct (setup_model_tensors _ _ _ Hret)
    as (installed & te & un & Hinst & Mte & Mun & Ite & Iun & _).
  destruct (install_adapters_fresh_views _ _ config Hinst) as [Fte Fun].
  split; intros Hnone.
  - destruct (Fte Hnone) as (view & Hv & Hname & Hcfg).
    exists view. split; [congruence|]. split; [exact Hname|].
    rewrite Hcfg. cbn [r lora_alpha lora_dropout target_modules make_lora_config].
    repeat split; try reflexivity; apply lora_target_modules_spec.
  - destruct (Fun Hnone) as (view & Hv & Hname & Hcfg).
    exists view. split; [congruence|]. split; [exact Hname|].
    rewrite Hcfg. cbn [r lora_alpha lora_dropout target_modules make_lora_config].
    repeat split; try reflexivity; apply lora_target_modules_spec.
Qed.

Lemma setup_model_installs_named_adapters_witness :
  exists view,
    text_encoder_lora demo_trained = Some view /\ active_adapter view = "lora_te" /\
    r (peft_config view) = 4%Z.
Proof.
  assert (Hret : setup_model demo_model demo_config_both = Ok demo_trained)
    by (vm_compute; reflexivity).
  destruct (setup_model_installs_named_adapters _ _ _ Hret) as [Hte _].
  destruct (Hte eq_refl) as (view & Hv & Hname & Hr & _).
  exists view. split; [exact Hv|]. split; [exact Hname | exact Hr].
Defined.

(** ** Device placement and the phase gate together *)

Lemma gates_tensors_congruence (a b : StableDiffusionModel) (config : TrainConfig) :
  text_encoder_lora a = text_encoder_lora b -> unet_lora a = unet_lora b ->
  train_progress a = train_progress b -> tensors a = tensors b ->
  tensors (gate_unet_lora (gate_text_encoder_lora a config) config)
  = tensors (gate_unet_lora (gate_text_encoder_lora b config) config).
Proof.
  intros Hte Hun Hp Ht.
  unfold gate_unet_lora, gate_text_encoder_lora, train_unet, train_text_encoder.
  rewrite Hte. destruct (text_encoder_lora b) as [te|];
    cbn [unet_lora with_tensors train_progress tensors];
    rewrite Hun; destruct (unet_lora b) as [un|];
    cbn [unet_lora with_tensors train_progress tensors];
    rewrite ?Hp, ?Ht; reflexivity.
Qed.

Lemma setup_train_device_with_tensors (self : StableDiffusionLoRASetup)
    (model : StableDiffusionModel) (config : TrainConfig) (t : Tensors) :
  setup_train_device self (with_tensors model t) config
  = with_tensors (setup_train_device self model config) t.
Proof.
  unfold setup_train_device.
  destruct (train (text_encoder_config config)), (train (unet_config config));
    apply model_ext; reflexivity.
Qed.

(** X16. Device placement and the per-step gate do not interfere: running
    [setup_train_device] before or after [after_optimizer_step] gives the
    same model. *)
Theorem setup_train_device_commutes_with_gate (self : StableDiffusionLoRASetup)
    (model : StableDiffusionModel) (config : TrainConfig) (progress : TrainProgress) :
  after_optimizer_step (setup_train_device self model config) config progress
  = setup_train_device self (after_optimizer_step model config progress) config.
Proof.
  unfold after_optimizer_step.
  rewrite (gates_only_write_tensors model config), setup_train_device_with_tensors.
  rewrite (gates_only_write_tensors (setup_train_device self model config) config).
  f_equal. apply gates_tensors_congruence;
    unfold setup_train_device;
    destruct (train (text_encoder_config config)), (train (unet_config config)); reflexivity.
Qed.
